(** * ClipShip / PasteHost asset generator: [scripts/generate_assets.py]

    A shallow embedding of the batch script that asks the Gemini image
    endpoint for one picture per catalog entry, decodes the inline base64
    payload, writes it below the output directory and derives the small
    icon sizes.

    The Python code is effectful: it prints, posts HTTP requests, writes
    files and raises exceptions.  It is embedded in a small monad [M] that
    threads the file system, records every effect in an event log and
    propagates exceptions.  What the script takes from its libraries
    ([requests.post], [base64.b64decode], Pillow) and from the process
    environment is collected in the class [Platform]. *)

From Stdlib Require Import ZArith NArith Ascii String List.
From Stdlib.Strings Require Import Byte.
From stdpp Require Import base tactics option list strings gmap pretty.

Local Open Scope string_scope.
Local Open Scope Z_scope.
Local Open Scope list_scope.

(** ** Python values *)

(** [bytes] objects. *)
Definition bytes : Type := list byte.

(** Exceptions that the modelled code and its library calls can raise. *)
Inductive pyexc : Type :=
  | AttributeError
  | TypeError
  | KeyError
  | IndexError
  | ValueError
  | BinasciiError
  | JSONDecodeError
  | RequestException
  | FileNotFoundError
  | UnidentifiedImageError
  | UnicodeEncodeError
  | SystemExit (code : Z).

(** The result of evaluating a Python expression or statement. *)
Inductive outcome (A : Type) : Type :=
  | Ret (a : A)
  | Raise (e : pyexc).
Arguments Ret {A} a.
Arguments Raise {A} e.

Set Warnings "-register-all".

(** What [json.loads] (behind [response.json()]) produces.  A [dict] is an
    association list read with first-match lookup; a float is kept as its
    64-bit pattern, which is all that truth testing needs. *)
Inductive json : Type :=
  | JNull
  | JBool (b : bool)
  | JInt (z : Z)
  | JFloat (bits : N)
  | JStr (s : string)
  | JArr (items : list json)
  | JObj (fields : list (string * json)).

(** [d.get(k)] on the association list of a dict. *)
Fixpoint dict_get {V : Type} (d : list (string * V)) (k : string) : option V :=
  match d with
  | [] => None
  | (k', v) :: rest => if String.eqb k' k then Some v else dict_get rest k
  end.

(** [d[k] = v]: replaces the binding in place, or appends a new one
    (dicts keep insertion order). *)
Fixpoint dict_set {V : Type} (d : list (string * V)) (k : string) (v : V)
  : list (string * V) :=
  match d with
  | [] => [(k, v)]
  | (k', v') :: rest =>
      if String.eqb k' k then (k', v) :: rest else (k', v') :: dict_set rest k v
  end.

(** [needle in hay] for two strings. *)
Fixpoint substringb (needle hay : string) : bool :=
  String.prefix needle hay ||
  match hay with
  | EmptyString => false
  | String _ rest => substringb needle rest
  end.

(** Truth value of a parsed JSON value ([not v] is its negation). *)
Definition truthy (v : json) : bool :=
  match v with
  | JNull => false
  | JBool b => b
  | JInt z => negb (z =? 0)
  | JFloat bits => negb (N.land bits (2 ^ 63 - 1) =? 0)%N
  | JStr s => negb (String.eqb s "")
  | JArr items => match items with [] => false | _ => true end
  | JObj fields => match fields with [] => false | _ => true end
  end.

(** [v.get(k, default)]: only dicts have the method. *)
Definition py_get (v : json) (k : string) (default : json) : outcome json :=
  match v with
  | JObj d => Ret (match dict_get d k with Some x => x | None => default end)
  | _ => Raise AttributeError
  end.

(** [v[0]]. *)
Definition py_index0 (v : json) : outcome json :=
  match v with
  | JArr (x :: _) => Ret x
  | JArr [] => Raise IndexError
  | JStr (String c _) => Ret (JStr (String c EmptyString))
  | JStr EmptyString => Raise IndexError
  | JObj _ => Raise KeyError
  | _ => Raise TypeError
  end.

(** [v[k]] for a string key. *)
Definition py_getitem (v : json) (k : string) : outcome json :=
  match v with
  | JObj d => match dict_get d k with Some x => Ret x | None => Raise KeyError end
  | _ => Raise TypeError
  end.

(** The items that [for x in v] visits. *)
Definition py_iter (v : json) : outcome (list json) :=
  match v with
  | JArr items => Ret items
  | JObj d => Ret (JStr <$> remove_dups (d.*1))
  | JStr s => Ret ((λ c, JStr (String c EmptyString)) <$> list_ascii_of_string s)
  | _ => Raise TypeError
  end.

(** [k in v] for a string [k]. *)
Definition py_contains (k : string) (v : json) : outcome bool :=
  match v with
  | JObj d => Ret (bool_decide (is_Some (dict_get d k)))
  | JStr s => Ret (substringb k s)
  | JArr items =>
      Ret (existsb (λ x, match x with JStr s => String.eqb s k | _ => false end) items)
  | _ => Raise TypeError
  end.

(** ** HTTP, the file system and the event log *)

(** The arguments of [requests.post]. *)
Record Request : Type := mkRequest {
  req_url : string;
  req_headers : list (string * string);
  req_json : json;
  req_timeout : Z
}.

(** What the script reads from a [requests.Response]: the status, the
    text, and the result of [response.json()], which is [None] when the text
    is not JSON (the call then raises).  The text is what [requests] has
    decoded from the bytes of the body, replacing what it cannot decode, so
    that it holds no lone surrogate; the parsed JSON can hold one, from an
    escape. *)
Record Response : Type := mkResponse {
  status_code : Z;
  text : string;
  body_json : option json
}.

(** Lines written to standard output (separator lines are left out).  The
    dump of the response, [json.dumps(result, indent=2, ensure_ascii=False)],
    is a line of its own, because printing it can fail. *)
Inductive message : Type :=
  | MsgGenerating (title model_id : string)
  | MsgHttpError (status : Z) (body : string)
  | MsgNoCandidates
  | MsgNoImageData
  | MsgParseError (e : pyexc)
  | MsgResponseDump (dump : json)
  | MsgSaved (path : string)
  | MsgResized (path : string)
  | MsgPillowMissing
  | MsgModelLine (short_name model_id : string) (is_default : bool)
  | MsgBanner (model_id : string)
  | MsgEntryHeader (image_id title : string)
  | MsgEntryFailed (image_id : string)
  | MsgEntryGenerated (nbytes : nat)
  | MsgResizeHeader
  | MsgSummaryOk (image_id : string) (filename : option string)
  | MsgSummaryFail (image_id : string)
  | MsgTally (success_count total : nat)
  | MsgOutputDir (path : string)
  | MsgNextSteps.

(** Observable effects, in the order in which they happen. *)
Inductive event : Type :=
  | EvPrint (m : message)
  | EvPost (r : Request)
  | EvWrite (path : string) (data : bytes)
  | EvIconSizes (base_icon_path : string).

(** The file system below the project root: the directories that exist
    and the content of every file.  Input and output errors of the
    operating system are not modelled: a write always succeeds. *)
Record FS : Type := mkFS {
  dirs : gset string;
  files : gmap string bytes
}.

(** ** The effect monad *)

(** A computation reads the file system and yields an outcome, the new file
    system and the events it produced.  Effects that happened before an
    exception stay. *)
Definition M (A : Type) : Type := FS → outcome A * FS * list event.

Definition ret {A : Type} (a : A) : M A := λ fs, (Ret a, fs, []).

Definition raise {A : Type} (e : pyexc) : M A := λ fs, (Raise e, fs, []).

Definition bind {A B : Type} (m : M A) (k : A → M B) : M B := λ fs,
  match m fs with
  | (Ret a, fs1, ev1) =>
      match k a fs1 with
      | (o, fs2, ev2) => (o, fs2, ev1 ++ ev2)
      end
  | (Raise e, fs1, ev1) => (Raise e, fs1, ev1)
  end.

(** [try: m except Exception as e: handler e] ([SystemExit] is not an
    [Exception] and passes through). *)
Definition try_except {A : Type} (m : M A) (handler : pyexc → M A) : M A := λ fs,
  match m fs with
  | (Raise (SystemExit c), fs1, ev1) => (Raise (SystemExit c), fs1, ev1)
  | (Raise e, fs1, ev1) =>
      match handler e fs1 with
      | (o, fs2, ev2) => (o, fs2, ev1 ++ ev2)
      end
  | r => r
  end.

Definition lift {A : Type} (o : outcome A) : M A := λ fs, (o, fs, []).

Definition emit (e : event) : M unit := λ fs, (Ret tt, fs, [e]).

(** [print] of a line that standard output can encode: the text of the
    script with a number, a path, the message of an exception, or the text
    of a response, which [requests] has decoded.  Such a call returns.  The
    dump of the parsed response is another matter: see [print_dump]. *)
Definition print (m : message) : M unit := emit (EvPrint m).

Declare Scope py_scope.
Delimit Scope py_scope with py.
Notation "'let*' x ':=' m 'in' k" := (bind m (λ x, k))
  (at level 10, x name, m at level 100, k at level 200) : py_scope.
Notation "'let*' ' p ':=' m 'in' k" := (bind m (λ x, match x with p => k end))
  (at level 10, p strict pattern, m at level 100, k at level 200) : py_scope.
Notation "m ';;' k" := (bind m (λ _, k))
  (at level 100, k at level 200, right associativity) : py_scope.
Local Open Scope py_scope.

(** Projections of a run. *)
Definition result_of {A : Type} (r : outcome A * FS * list event) : outcome A := r.1.1.
Definition fs_of {A : Type} (r : outcome A * FS * list event) : FS := r.1.2.
Definition events_of {A : Type} (r : outcome A * FS * list event) : list event := r.2.

(** The requests posted, the files written and the icon derivations started
    in an event log. *)
Definition posts (evs : list event) : list Request :=
  omap (λ e, match e with EvPost r => Some r | _ => None end) evs.
Definition writes (evs : list event) : list (string * bytes) :=
  omap (λ e, match e with EvWrite p d => Some (p, d) | _ => None end) evs.
Definition icon_derivations (evs : list event) : list string :=
  omap (λ e, match e with EvIconSizes p => Some p | _ => None end) evs.
Definition printed (evs : list event) : list message :=
  omap (λ e, match e with EvPrint m => Some m | _ => None end) evs.

(** Sequencing of pure fallible expressions. *)
Definition obind {A B : Type} (o : outcome A) (k : A → outcome B) : outcome B :=
  match o with
  | Ret a => k a
  | Raise e => Raise e
  end.
Notation "'let?' x ':=' o 'in' k" := (obind o (λ x, k))
  (at level 10, x name, o at level 100, k at level 200) : py_scope.

(** ** The platform: libraries and process environment *)

(** Pillow, when it is installed: [Image.open] on the content of a file and
    [img.resize((size, size), LANCZOS).save(...)], which gives the bytes of
    the written file. *)
Record PillowModule : Type := mkPillow {
  Image : Type;
  Image_open : bytes → outcome Image;
  resize_save : Image → Z → outcome bytes
}.

Class Platform : Type := {
  (** [os.getenv('GEMINI_API_KEY')] *)
  getenv_GEMINI_API_KEY : option string;
  (** [base64.b64decode] on a [str]; [None] when it raises [binascii.Error]
      (or its base class [ValueError]) *)
  b64decode : string → option bytes;
  (** [requests.post]: a response, or an exception (time-out, connection) *)
  requests_post : Request → outcome Response;
  (** the exception, if there is one, that printing the dump of a response
      raises: [json.loads] accepts strings that standard output cannot
      encode (a lone surrogate such as [\ud800] has no UTF-8 encoding, and
      [print] then raises [UnicodeEncodeError]) *)
  dump_print_error : json → option pyexc;
  (** the result of [from PIL import Image] *)
  PIL : option PillowModule
}.

(** ** Module-level configuration *)

Definition dq : string := String "034"%char EmptyString.
Definition nl : string := String "010"%char EmptyString.

(** A text block written line by line: the lines joined by newlines. *)
Fixpoint unlines (ls : list string) : string :=
  match ls with
  | [] => ""
  | [l] => l
  | l :: rest => l +:+ nl +:+ unlines rest
  end.

Definition OUTPUT_DIR : string := "assets".

(** [OUTPUT_DIR / filename] *)
Definition path_join (dir name : string) : string := dir +:+ "/" +:+ name.

Definition AVAILABLE_MODELS : list (string * string) := [
  ("gemini-3-pro", "gemini-3-pro-image-preview");
  ("gemini-2.5-flash", "gemini-2.5-flash-preview-05-20");
  ("imagen-3", "imagen-3.0-generate-002")
].

Definition DEFAULT_MODEL : string := "gemini-3-pro".

Record AssetSpec : Type := mkAsset {
  title : string;
  prompt : string;
  filename : string
}.

Definition prompt_icon : string := unlines [
  "Create a modern app icon for " +:+ dq +:+ "PasteHost" +:+ dq +:+ " - a clipboard deployment tool.";
  "";
  "DESIGN:";
  "- Square icon with rounded corners (like iOS/Android app icons)";
  "- Size: 128x128 pixels";
  "- Background: Gradient from deep blue #1976D2 to purple #7B1FA2";
  "";
  "MAIN ELEMENTS:";
  "- Center: A stylized clipboard icon (white outline, slightly tilted)";
  "- On the clipboard: A rocket ship launching upward 🚀";
  "- The rocket has a small flame trail (orange #FF9800 to yellow #FFEB3B gradient)";
  "- Small cloud/deploy icons around the rocket";
  "";
  "STYLE:";
  "- Modern, flat design with subtle shadows";
  "- Clean lines, minimalist";
  "- Professional but friendly";
  "- The clipboard represents " +:+ dq +:+ "copy" +:+ dq +:+ " and the rocket represents " +:+ dq +:+ "deploy/ship" +:+ dq;
  "";
  "COLOR PALETTE:";
  "- Primary: #1976D2 (blue)";
  "- Secondary: #7B1FA2 (purple)";
  "- Accent: #FF9800 (orange), #FFEB3B (yellow)";
  "- Icons: White #FFFFFF";
  "";
  "NO TEXT - icon only."
].

Definition prompt_promo_small : string := unlines [
  "Create a promotional banner for " +:+ dq +:+ "PasteHost" +:+ dq +:+ " Chrome extension.";
  "";
  "SIZE: 440x280 pixels (landscape)";
  "";
  "BACKGROUND:";
  "- Gradient from dark blue #0D47A1 on left to purple #4A148C on right";
  "- Subtle grid pattern overlay (tech feel)";
  "";
  "LEFT SIDE (40%):";
  "- Large " +:+ dq +:+ "PasteHost" +:+ dq +:+ " text in white, bold modern font";
  "- Below: " +:+ dq +:+ "Clipboard → Web" +:+ dq +:+ " in smaller text";
  "- Small rocket emoji 🚀";
  "";
  "RIGHT SIDE (60%):";
  "- Illustration showing the workflow:";
  "  1. Clipboard icon (white) with code/markdown inside";
  "  2. Arrow pointing right";
  "  3. Browser window showing a beautiful webpage";
  "  4. Netlify and GitHub logos (small, subtle)";
  "";
  "BOTTOM:";
  "- Small icons representing features:";
  "  - Markdown icon (M↓)";
  "  - Code brackets { }";
  "  - Diagram/flowchart icon";
  "  - Lightning bolt (fast)";
  "";
  "STYLE:";
  "- Modern, tech-focused design";
  "- Clean and professional";
  "- High contrast for readability";
  "- Chrome Web Store promotional tile aesthetic"
].

Definition prompt_promo_large : string := unlines [
  "Create a large promotional banner for " +:+ dq +:+ "PasteHost" +:+ dq +:+ " Chrome extension.";
  "";
  "SIZE: 920x680 pixels (landscape)";
  "";
  "BACKGROUND:";
  "- Dark gradient: #0D47A1 (blue) to #311B92 (deep purple)";
  "- Subtle geometric patterns (hexagons, dots)";
  "";
  "HEADER (top 30%):";
  "- " +:+ dq +:+ "PasteHost" +:+ dq +:+ " logo/text - large, white, modern sans-serif font";
  "- Tagline: " +:+ dq +:+ "Deploy Clipboard to Web Instantly" +:+ dq +:+ " in light blue #64B5F6";
  "- Small rocket icon next to logo";
  "";
  "CENTER (main area, 50%):";
  "- Three-step workflow illustration:";
  "";
  "  STEP 1 (left):";
  "  - Clipboard icon with " +:+ dq +:+ "Ctrl+C" +:+ dq +:+ " badge";
  "  - Sample content showing Markdown/HTML code";
  "  - Label: " +:+ dq +:+ "Copy" +:+ dq;
  "";
  "  STEP 2 (center):";
  "  - PasteHost extension popup mockup";
  "  - Two buttons: " +:+ dq +:+ "Netlify" +:+ dq +:+ " and " +:+ dq +:+ "Gist" +:+ dq;
  "  - Label: " +:+ dq +:+ "Click" +:+ dq;
  "";
  "  STEP 3 (right):";
  "  - Browser showing rendered webpage";
  "  - Beautiful formatted content with code highlighting";
  "  - URL bar showing netlify.app domain";
  "  - Label: " +:+ dq +:+ "Live!" +:+ dq;
  "";
  "- Curved arrows connecting the steps";
  "";
  "BOTTOM (20%):";
  "- Feature icons in a row:";
  "  - " +:+ dq +:+ "HTML" +:+ dq +:+ " with checkmark";
  "  - " +:+ dq +:+ "Markdown" +:+ dq +:+ " with checkmark";
  "  - " +:+ dq +:+ "Syntax Highlighting" +:+ dq +:+ " with code icon";
  "  - " +:+ dq +:+ "Mermaid Diagrams" +:+ dq +:+ " with flowchart icon";
  "  - " +:+ dq +:+ "Instant Deploy" +:+ dq +:+ " with lightning icon";
  "";
  "FOOTER:";
  "- Netlify logo (small)";
  "- GitHub logo (small)";
  "- " +:+ dq +:+ "Free & Open Source" +:+ dq +:+ " badge";
  "";
  "STYLE:";
  "- Professional SaaS/developer tool aesthetic";
  "- Clean, modern, high-tech feel";
  "- Easy to understand workflow";
  "- Appealing to developers"
].

Definition prompt_screenshot_popup : string := unlines [
  "Create a screenshot mockup for PasteHost Chrome extension popup.";
  "";
  "SIZE: 1280x800 pixels";
  "";
  "BACKGROUND:";
  "- A code editor (VS Code style) showing Markdown content";
  "- Dark theme editor with syntax highlighting";
  "- The Markdown contains:";
  "  ```markdown";
  "  # Hello World";
  "";
  "  This is a **demo** of PasteHost.";
  "";
  "  ```javascript";
  "  console.log('Hello!');";
  "  ```";
  "  ```";
  "";
  "POPUP OVERLAY (center-right):";
  "- Chrome extension popup window (300px wide)";
  "- White background with shadow";
  "- Header: " +:+ dq +:+ "PasteHost" +:+ dq +:+ " with small rocket icon";
  "- Two large buttons:";
  "  1. " +:+ dq +:+ "Deploy to Netlify" +:+ dq +:+ " - Blue button #1976D2";
  "  2. " +:+ dq +:+ "Deploy to Gist" +:+ dq +:+ " - Green button #388E3C";
  "- Status area showing: " +:+ dq +:+ "Ready to deploy" +:+ dq;
  "- Small settings gear icon in corner";
  "";
  "ANNOTATION ARROWS:";
  "- Arrow from clipboard icon to popup: " +:+ dq +:+ "1. Copy content" +:+ dq;
  "- Arrow from Netlify button: " +:+ dq +:+ "2. Click to deploy" +:+ dq;
  "- Arrow pointing to imaginary browser: " +:+ dq +:+ "3. Get shareable URL" +:+ dq;
  "";
  "BOTTOM BANNER:";
  "- Light overlay with text: " +:+ dq +:+ "One-click deployment for HTML, Markdown & more" +:+ dq;
  "";
  "STYLE:";
  "- Realistic Chrome browser mockup";
  "- Professional screenshot for Chrome Web Store";
  "- Clear, easy to understand workflow"
].

Definition prompt_screenshot_result : string := unlines [
  "Create a screenshot showing PasteHost deployment result.";
  "";
  "SIZE: 1280x800 pixels";
  "";
  "MAIN CONTENT:";
  "- Browser window showing a deployed webpage";
  "- URL bar: " +:+ dq +:+ "https://pastehost-abc123.netlify.app/xyz789/index.html" +:+ dq;
  "- Green lock icon (HTTPS)";
  "";
  "WEBPAGE CONTENT (rendered Markdown):";
  "- Clean, beautiful rendered page with:";
  "  - Large heading " +:+ dq +:+ "# Project Documentation" +:+ dq;
  "  - Formatted paragraphs";
  "  - Code block with syntax highlighting (JavaScript)";
  "  - A Mermaid flowchart diagram showing:";
  "    ```";
  "    graph TD";
  "      A[Start] --> B{Decision}";
  "      B -->|Yes| C[Action 1]";
  "      B -->|No| D[Action 2]";
  "    ```";
  "  - Bullet list";
  "  - Table with data";
  "";
  "POPUP OVERLAY (bottom-right):";
  "- PasteHost popup showing success state:";
  "  - Green checkmark ✓";
  "  - " +:+ dq +:+ "Success!" +:+ dq +:+ " text";
  "  - URL link (clickable)";
  "  - " +:+ dq +:+ "Copied to clipboard!" +:+ dq +:+ " message";
  "";
  "ANNOTATION:";
  "- Callout bubble: " +:+ dq +:+ "Instant live preview!" +:+ dq;
  "- Arrow pointing to Mermaid diagram: " +:+ dq +:+ "Mermaid diagrams supported" +:+ dq;
  "- Arrow pointing to code: " +:+ dq +:+ "Syntax highlighting" +:+ dq;
  "";
  "STYLE:";
  "- Realistic browser mockup";
  "- Shows the power of the extension";
  "- Professional and polished"
].

Definition prompt_screenshot_options : string := unlines [
  "Create a screenshot of PasteHost options/settings page.";
  "";
  "SIZE: 1280x800 pixels";
  "";
  "BROWSER WINDOW:";
  "- Chrome browser with extension options page";
  "- URL: " +:+ dq +:+ "chrome-extension://xxx/options.html" +:+ dq;
  "";
  "OPTIONS PAGE CONTENT:";
  "- Clean white background";
  "- Header: " +:+ dq +:+ "PasteHost Settings" +:+ dq +:+ " with gear icon";
  "";
  "FORM SECTIONS:";
  "";
  "Section 1 - Netlify:";
  "- Netlify logo (teal color)";
  "- Label: " +:+ dq +:+ "Netlify Personal Access Token" +:+ dq;
  "- Password input field (dots showing hidden token)";
  "- Help text: " +:+ dq +:+ "Get token from app.netlify.com → User Settings → Applications" +:+ dq;
  "- Link: " +:+ dq +:+ "Get your token →" +:+ dq;
  "";
  "Section 2 - GitHub:";
  "- GitHub logo (black)";
  "- Label: " +:+ dq +:+ "GitHub Personal Access Token" +:+ dq;
  "- Password input field";
  "- Help text: " +:+ dq +:+ "Requires 'gist' scope" +:+ dq;
  "- Link: " +:+ dq +:+ "Create token →" +:+ dq;
  "";
  "BOTTOM:";
  "- " +:+ dq +:+ "Save" +:+ dq +:+ " button (blue #1976D2)";
  "- " +:+ dq +:+ "Saved!" +:+ dq +:+ " success message with checkmark";
  "";
  "SIDEBAR INFO:";
  "- " +:+ dq +:+ "About PasteHost" +:+ dq +:+ " section";
  "- Version: 1.0.0";
  "- Links: Documentation, Report Issue, Privacy Policy";
  "";
  "STYLE:";
  "- Clean settings page design";
  "- Clear form layout";
  "- Professional Chrome extension options aesthetic";
  "- Easy to understand where to get tokens"
].

(** The catalog, in the order of its definition (dicts keep insertion
    order). *)
Definition IMAGE_PROMPTS : list (string * AssetSpec) := [
  ("icon", {| title := "PasteHost アイコン (128x128)";
      prompt := prompt_icon;
      filename := "icon128.png" |});
  ("promo_small", {| title := "Small Promo Tile (440x280)";
      prompt := prompt_promo_small;
      filename := "promo_small_440x280.png" |});
  ("promo_large", {| title := "Large Promo Tile (920x680)";
      prompt := prompt_promo_large;
      filename := "promo_large_920x680.png" |});
  ("screenshot_popup", {| title := "Screenshot - Popup UI (1280x800)";
      prompt := prompt_screenshot_popup;
      filename := "screenshot_popup_1280x800.png" |});
  ("screenshot_result", {| title := "Screenshot - Deploy Result (1280x800)";
      prompt := prompt_screenshot_result;
      filename := "screenshot_result_1280x800.png" |});
  ("screenshot_options", {| title := "Screenshot - Options Page (1280x800)";
      prompt := prompt_screenshot_options;
      filename := "screenshot_options_1280x800.png" |})
].

(** ** File-system and network primitives *)

(** [OUTPUT_DIR.mkdir(exist_ok=True)] *)
Definition mkdir (d : string) : M unit := λ fs,
  (Ret tt, {| dirs := {[ d ]} ∪ dirs fs; files := files fs |}, []).

(** [open(path, 'wb').write(data)], also the effect of [img.save(path)]:
    the file is created or overwritten. *)
Definition write_file (path : string) (data : bytes) : M unit := λ fs,
  (Ret tt, {| dirs := dirs fs; files := <[ path := data ]> (files fs) |},
   [EvWrite path data]).

(** [path.exists()] *)
Definition path_exists (path : string) : M bool := λ fs,
  (Ret (bool_decide (is_Some (files fs !! path))), fs, []).

(** The content of a file, for a library that opens it. *)
Definition read_file (path : string) : M bytes := λ fs,
  match files fs !! path with
  | Some data => (Ret data, fs, [])
  | None => (Raise FileNotFoundError, fs, [])
  end.

(** Whether a [str] holds ASCII characters only. *)
Definition is_ascii (s : string) : bool :=
  forallb (λ c, N_of_ascii c <? 128)%N (list_ascii_of_string s).

Section Script.
Context `{Platform}.

(** The key that the request header carries.  The module-level guard
    ([script] below) leaves the script when it is unset or empty. *)
Definition GEMINI_API_KEY : string := default "" getenv_GEMINI_API_KEY.

(** The request built at the head of [generate_image_with_gemini]. *)
Definition gemini_request (prompt model_id : string) : Request :=
  {| req_url := "https://generativelanguage.googleapis.com/v1beta/models/"
                +:+ model_id +:+ ":generateContent";
     req_headers := [("Content-Type", "application/json");
                     ("x-goog-api-key", GEMINI_API_KEY)];
     req_json :=
       JObj [("contents", JArr [JObj [("parts", JArr [JObj [("text", JStr prompt)]])]]);
             ("generationConfig",
              JObj [("responseModalities", JArr [JStr "image"; JStr "text"]);
                    ("responseMimeType", JStr "text/plain")])];
     req_timeout := 180 |}.

Definition http_post (r : Request) : M Response := λ fs,
  (requests_post r, fs, [EvPost r]).

(** ** The generation client *)

(** The loop that looks for inline data: the first part for which
    ['inlineData' in part] holds decides, and the loop stops there. *)
Fixpoint find_inline_data (parts : list json) : outcome json :=
  match parts with
  | [] => Ret JNull
  | part :: rest =>
      let? found := py_contains "inlineData" part in
      if found then
        let? inline := py_getitem part "inlineData" in
        py_get inline "data" JNull
      else find_inline_data rest
  end.

(** [base64.b64decode(image_data)] on a value taken from the response.  A
    [str] is first encoded as ASCII, which raises [ValueError] for a
    character outside ASCII; the decoder proper raises [binascii.Error]. *)
Definition b64decode_value (image_data : json) : outcome bytes :=
  match image_data with
  | JStr s => match b64decode s with
              | Some decoded => Ret decoded
              | None => Raise (if is_ascii s then BinasciiError else ValueError)
              end
  | _ => Raise TypeError
  end.

(** [print(f"...: {json.dumps(result, indent=2, ensure_ascii=False)}")] *)
Definition print_dump (result : json) : M unit :=
  match dump_print_error result with
  | None => print (MsgResponseDump result)
  | Some e => raise e
  end.

(** [candidates[0].get('content', {}).get('parts', [])] *)
Definition first_candidate_parts (candidates : json) : outcome json :=
  let? first := py_index0 candidates in
  let? content := py_get first "content" (JObj []) in
  py_get content "parts" (JArr []).

(** The body of the [try] block. *)
Definition extract_image (result : json) : M (option bytes) :=
  let* candidates := lift (py_get result "candidates" (JArr [])) in
  if negb (truthy candidates) then
    print MsgNoCandidates ;;
    print_dump result ;;
    ret None
  else
    let* parts := lift (first_candidate_parts candidates) in
    let* image_data := lift (let? items := py_iter parts in find_inline_data items) in
    if negb (truthy image_data) then
      print MsgNoImageData ;;
      print_dump result ;;
      ret None
    else
      let* decoded := lift (b64decode_value image_data) in
      ret (Some decoded).

Definition generate_image_with_gemini (prompt title model_id : string)
  : M (option bytes) :=
  print (MsgGenerating title model_id) ;;
  let* response := http_post (gemini_request prompt model_id) in
  if negb (status_code response =? 200) then
    print (MsgHttpError (status_code response) (text response)) ;;
    ret None
  else
    let* result := lift (match body_json response with
                         | Some j => Ret j
                         | None => Raise JSONDecodeError
                         end) in
    try_except (extract_image result)
      (λ e, print (MsgParseError e) ;; print_dump result ;; ret None).

(** ** Persistence *)

Definition save_image (image_data : bytes) (filename : string) : M string :=
  mkdir OUTPUT_DIR ;;
  let filepath := path_join OUTPUT_DIR filename in
  write_file filepath image_data ;;
  print (MsgSaved filepath) ;;
  ret filepath.

(** ** Icon derivation *)

Fixpoint resize_each (pil : PillowModule) (img : Image pil) (sizes : list Z) : M unit :=
  match sizes with
  | [] => ret tt
  | size :: rest =>
      let* resized := lift (resize_save pil img size) in
      let output_path := path_join OUTPUT_DIR ("icon" +:+ pretty size +:+ ".png") in
      write_file output_path resized ;;
      print (MsgResized output_path) ;;
      resize_each pil img rest
  end.

(** The call is recorded in the event log before anything else happens.
    Only [ImportError] is caught: an exception of [Image.open] or of the
    resize leaves the function. *)
Definition create_icon_sizes (base_icon_path : string) : M unit :=
  emit (EvIconSizes base_icon_path) ;;
  match PIL with
  | None => print MsgPillowMissing
  | Some pil =>
      let* content := read_file base_icon_path in
      let* img := lift (Image_open pil content) in
      resize_each pil img [16; 32; 48]
  end.

(** ** The driver *)

(** The namespace that [parse_args] returns.  [argparse] accepts for
    [model] a key of [AVAILABLE_MODELS] and for [target] a key of
    [IMAGE_PROMPTS] or ["all"]. *)
Record Args : Type := mkArgs {
  model : string;
  list_models : bool;
  target : string
}.

Definition args_accepted (args : Args) : Prop :=
  is_Some (dict_get AVAILABLE_MODELS (model args)) ∧
  (target args = "all" ∨ is_Some (dict_get IMAGE_PROMPTS (target args))).

(** An entry of [results]: [{"success": True, "filename": .., "path": ..}]
    or [{"success": False}]. *)
Inductive GenResult : Type :=
  | Success (filename path : string)
  | Failure.

Definition succeeded (r : GenResult) : bool :=
  match r with Success _ _ => true | Failure => false end.

(** The [for image_id, config in targets.items()] loop, with the two
    variables [results] and [icon_path] that it updates. *)
Fixpoint main_loop (model_id : string) (targets : list (string * AssetSpec))
    (results : list (string * GenResult)) (icon_path : option string)
  : M (list (string * GenResult) * option string) :=
  match targets with
  | [] => ret (results, icon_path)
  | (image_id, config) :: rest =>
      print (MsgEntryHeader image_id (title config)) ;;
      let* image_data :=
        generate_image_with_gemini (prompt config) (title config) model_id in
      match image_data with
      | Some (b :: bs) =>
          print (MsgEntryGenerated (length (b :: bs))) ;;
          let* filepath := save_image (b :: bs) (filename config) in
          let results := dict_set results image_id (Success (filename config) filepath) in
          let icon_path := if String.eqb image_id "icon" then Some filepath else icon_path in
          main_loop model_id rest results icon_path
      | _ =>
          (* [not image_data]: [None] or empty bytes *)
          print (MsgEntryFailed image_id) ;;
          main_loop model_id rest (dict_set results image_id Failure) icon_path
      end
  end.

(** The summary loop; it returns [success_count]. *)
Fixpoint print_summary (results : list (string * GenResult)) (success_count : nat)
  : M nat :=
  match results with
  | [] => ret success_count
  | (image_id, Success fname _) :: rest =>
      print (MsgSummaryOk image_id (Some fname)) ;;
      print_summary rest (S success_count)
  | (image_id, Failure) :: rest =>
      print (MsgSummaryFail image_id) ;;
      print_summary rest success_count
  end.

Fixpoint print_models (models : list (string * string)) : M unit :=
  match models with
  | [] => ret tt
  | (short_name, model_id) :: rest =>
      print (MsgModelLine short_name model_id (String.eqb short_name DEFAULT_MODEL)) ;;
      print_models rest
  end.

(** [targets]: the whole catalog, or the one requested entry. *)
Definition resolve_targets (target : string) : outcome (list (string * AssetSpec)) :=
  if String.eqb target "all" then Ret IMAGE_PROMPTS
  else match dict_get IMAGE_PROMPTS target with
       | Some config => Ret [(target, config)]
       | None => Raise KeyError
       end.

(** The part of [main] after the loop: icon derivation and summary. *)
Definition finish (results : list (string * GenResult)) (icon_path : option string)
  : M unit :=
  (match icon_path with
   | Some path =>
       let* present := path_exists path in
       if present then
         print MsgResizeHeader ;;
         create_icon_sizes path
       else ret tt
   | None => ret tt
   end) ;;
  let* success_count := print_summary results 0%nat in
  print (MsgTally success_count (length IMAGE_PROMPTS)) ;;
  print (MsgOutputDir OUTPUT_DIR) ;;
  print MsgNextSteps.

Definition main (args : Args) : M unit :=
  if list_models args then
    print_models AVAILABLE_MODELS ;;
    raise (SystemExit 0)
  else
    let* model_id := lift (match dict_get AVAILABLE_MODELS (model args) with
                           | Some m => Ret m
                           | None => Raise KeyError
                           end) in
    print (MsgBanner model_id) ;;
    let* targets := lift (resolve_targets (target args)) in
    let* '(results, icon_path) := main_loop model_id targets [] None in
    finish results icon_path.

(** The module as a script: the credential guard at import time, then
    [main()].  The two lines that the guard prints before it leaves are
    not part of the event log. *)
Definition script (args : Args) : M unit :=
  match getenv_GEMINI_API_KEY with
  | None | Some EmptyString => raise (SystemExit 1)
  | Some _ => main args
  end.

End Script.

(** ** A concrete platform *)

(** A base64 decoder in the manner of [binascii.a2b_base64] without strict
    mode: characters outside the alphabet are skipped, padding ends the
    input once a group is complete, and an incomplete group is an error. *)
Module Base64.

Definition table_a2b (c : ascii) : option N :=
  let n := N_of_ascii c in
  (if (65 <=? n) && (n <=? 90) then Some (n - 65)
   else if (97 <=? n) && (n <=? 122) then Some (n - 71)
   else if (48 <=? n) && (n <=? 57) then Some (n + 4)
   else if n =? 43 then Some 62
   else if n =? 47 then Some 63
   else None)%N.

Definition to_byte (n : N) : byte := default x00 (Byte.of_N (N.land n 255)).

Fixpoint a2b (input : list ascii) (quad_pos leftchar pads : N) (acc : bytes)
  : option bytes :=
  match input with
  | [] => if quad_pos =? 0 then Some (rev acc) else None
  | c :: rest =>
      if Ascii.eqb c "="%char then
        if (2 <=? quad_pos) && (4 <=? quad_pos + (pads + 1)) then Some (rev acc)
        else a2b rest quad_pos leftchar (if 2 <=? quad_pos then pads + 1 else pads) acc
      else
        match table_a2b c with
        | None => a2b rest quad_pos leftchar pads acc
        | Some v =>
            if quad_pos =? 0 then a2b rest 1 v 0 acc
            else if quad_pos =? 1 then
              a2b rest 2 (N.land v 15) 0
                  (to_byte (N.lor (N.shiftl leftchar 2) (N.shiftr v 4)) :: acc)
            else if quad_pos =? 2 then
              a2b rest 3 (N.land v 3) 0
                  (to_byte (N.lor (N.shiftl leftchar 4) (N.shiftr v 2)) :: acc)
            else
              a2b rest 0 0 0 (to_byte (N.lor (N.shiftl leftchar 6) v) :: acc)
        end
  end%N.

(** A [str] argument must be ASCII. *)
Definition decode (s : string) : option bytes :=
  let input := list_ascii_of_string s in
  if forallb (λ c, N_of_ascii c <? 128)%N input then a2b input 0 0 0 [] else None.

End Base64.

(** A Pillow that accepts every file and writes the requested size as a
    one-byte picture. *)
Definition stub_pillow : PillowModule :=
  {| Image := bytes;
     Image_open := λ content, Ret content;
     resize_save := λ _ size, Ret [Base64.to_byte (Z.to_N size)] |}.

(** A standard output that encodes in UTF-8.  The strings of the model hold
    text in UTF-8; a lone surrogate (U+D800 to U+DFFF), which [json.loads]
    produces from an escape such as [\ud800], has no UTF-8 encoding and is
    held in the generalized form: the byte ED followed by a byte from A0
    on.  Printing a dump that holds one raises [UnicodeEncodeError]. *)
Fixpoint has_surrogate (s : string) : bool :=
  match s with
  | EmptyString => false
  | String c rest =>
      (Ascii.eqb c "237"%char &&
       match rest with
       | String d _ => (160 <=? N_of_ascii d)%N
       | EmptyString => false
       end) || has_surrogate rest
  end.

Fixpoint json_has_surrogate (j : json) : bool :=
  match j with
  | JStr s => has_surrogate s
  | JArr items => existsb json_has_surrogate items
  | JObj fields =>
      existsb (λ field, has_surrogate field.1 || json_has_surrogate field.2) fields
  | _ => false
  end.

Definition utf8_stdout (result : json) : option pyexc :=
  if json_has_surrogate result then Some UnicodeEncodeError else None.

(** A platform with a set key, the decoder above, a scripted provider and
    a UTF-8 standard output. *)
Definition scripted (provider : Request → outcome Response)
    (pil : option PillowModule) : Platform :=
  {| getenv_GEMINI_API_KEY := Some "test-key";
     b64decode := Base64.decode;
     requests_post := provider;
     dump_print_error := utf8_stdout;
     PIL := pil |}.

(** The JSON of a well-formed answer with the given parts. *)
Definition content_of (parts : list json) : list (string * json) :=
  [("parts", JArr parts); ("role", JStr "model")].

Definition candidate_of (parts : list json) : list (string * json) :=
  [("content", JObj (content_of parts)); ("finishReason", JStr "STOP")].

Definition answer (parts : list json) : json :=
  JObj [("candidates", JArr [JObj (candidate_of parts)])].

Definition fields_of (j : json) : list (string * json) :=
  match j with JObj fields => fields | _ => [] end.

Definition inline_part (payload : string) : json :=
  JObj [("inlineData", JObj [("mimeType", JStr "image/png"); ("data", JStr payload)])].

Definition ok_response (result : json) : Response :=
  {| status_code := 200; text := "{...}"; body_json := Some result |}.

Definition empty_fs : FS := {| dirs := ∅; files := ∅ |}.

(** Scenarios: command lines and providers. *)

(** The bytes of [ABC], which the payload [QUJD] encodes. *)
Definition abc : bytes := [x41; x42; x43].

(** The first entry of the catalog. *)
Definition icon_spec : AssetSpec :=
  match IMAGE_PROMPTS with
  | (_, config) :: _ => config
  | [] => {| title := ""; prompt := ""; filename := "" |}
  end.

Definition pro_model : string := "gemini-3-pro-image-preview".

Definition icon_args : Args :=
  {| model := "gemini-3-pro"; list_models := false; target := "icon" |}.

Definition all_args : Args :=
  {| model := "gemini-3-pro"; list_models := false; target := "all" |}.

(** Every request is answered with a text part and a picture [ABC]. *)
Definition image_provider : Request → outcome Response :=
  λ _, Ret (ok_response (answer [JObj [("text", JStr "Here is your image.")];
                                 inline_part "QUJD"])).

(** Every request is answered with status 200 and a body that is not JSON. *)
Definition html_provider : Request → outcome Response :=
  λ _, Ret {| status_code := 200; text := "<html>Bad gateway</html>"; body_json := None |}.


(** An answer whose first part has the key [inlineData] without [data], and
    whose second part carries a picture. *)
Definition dataless_first_parts : list json :=
  [JObj [("inlineData", JObj [("mimeType", JStr "image/png")])]; inline_part "QUJD"].

Definition dataless_first_provider : Request → outcome Response :=
  λ _, Ret (ok_response (answer dataless_first_parts)).



(** * Vocabulary of the properties *)

(** ** Event logs *)

(** The tallies printed at the end of the summary. *)
Definition tallies (evs : list event) : list (nat * nat) :=
  omap (λ e, match e with
             | EvPrint (MsgTally success_count total) => Some (success_count, total)
             | _ => None
             end) evs.

(** The entries whose turn has begun, in order: each turn of the loop
    opens with the header line of its entry. *)
Definition started (evs : list event) : list string :=
  omap (λ e, match e with
             | EvPrint (MsgEntryHeader image_id _) => Some image_id
             | _ => None
             end) evs.

(** A line other than the header of a turn. *)
Definition log_line (m : message) : Prop :=
  match m with MsgEntryHeader _ _ => False | _ => True end.

(** An event log that only prints such lines. *)
Definition quiet (evs : list event) : Prop :=
  Forall (λ e, ∃ m, e = EvPrint m ∧ log_line m) evs.

(** An event log of such lines and of writes to the given paths. *)
Definition writes_only (paths : list string) (evs : list event) : Prop :=
  Forall (λ e, match e with
               | EvPrint m => log_line m
               | EvWrite path _ => path ∈ paths
               | _ => False
               end) evs.

(** Exceptions that [except Exception] catches. *)
Definition catchable (e : pyexc) : Prop :=
  match e with SystemExit _ => False | _ => True end.

(** ** Responses *)

(** The test ['inlineData' in part] is false. *)
Definition lacks_inline (part : json) : Prop :=
  py_contains "inlineData" part = Ret false.

(** [parts] is the list [candidates[0].content.parts] of the response. *)
Definition response_parts (result : json) (parts : list json) : Prop :=
  ∃ fields cfields cs content,
    result = JObj fields ∧
    dict_get fields "candidates" = Some (JArr (JObj cfields :: cs)) ∧
    dict_get cfields "content" = Some (JObj content) ∧
    dict_get content "parts" = Some (JArr parts).

(** The part carries inline binary data: an [inlineData] object with a
    [data] string. *)
Definition carries_data (part : json) (payload : string) : Prop :=
  ∃ pfields inline,
    part = JObj pfields ∧
    dict_get pfields "inlineData" = Some (JObj inline) ∧
    dict_get inline "data" = Some (JStr payload).

(** [payload] is the data of the first part of [parts] that carries any. *)
Definition first_data_part (parts : list json) (payload : string) : Prop :=
  ∃ pre part post,
    parts = pre ++ part :: post ∧
    Forall (λ p, ∀ s, ¬ carries_data p s) pre ∧
    carries_data part payload.

Section Vocabulary.
Context `{Platform}.

(** What the [try] block of the client computes, without its prints. *)
Definition parsed_image (result : json) : outcome (option bytes) :=
  let? candidates := py_get result "candidates" (JArr []) in
  if negb (truthy candidates) then Ret None
  else
    let? parts := first_candidate_parts candidates in
    let? image_data := (let? items := py_iter parts in find_inline_data items) in
    if negb (truthy image_data) then Ret None
    else
      let? decoded := b64decode_value image_data in
      Ret (Some decoded).

(** Every way through the client that does not return bytes prints the
    dump of the response last: in the [try] block, or in the handler, which
    nothing protects.  The client then returns [None], or leaves with the
    exception of that [print]. *)
Definition dump_outcome (result : json) : outcome (option bytes) :=
  match dump_print_error result with
  | None => Ret None
  | Some e => Raise e
  end.

(** What the client returns for a response: [None] for another status
    than 200; the exception of [response.json()], which is raised before
    the [try] block is entered; the bytes that the [try] block extracts;
    and for everything else what printing the dump gives. *)
Definition client_answer (response : Response) : outcome (option bytes) :=
  if negb (status_code response =? 200) then Ret None
  else match body_json response with
       | None => Raise JSONDecodeError
       | Some result =>
           match parsed_image result with
           | Ret (Some image) => Ret (Some image)
           | _ => dump_outcome result
           end
       end.


(** ** Turns of the loop *)

Definition entry_path (config : AssetSpec) : string :=
  path_join OUTPUT_DIR (filename config).

Definition entry_request (model_id : string) (entry : string * AssetSpec) : Request :=
  gemini_request (prompt entry.2) model_id.

(** The answer of the client for a catalog entry. *)
Definition entry_answer (model_id : string) (config : AssetSpec)
  : outcome (option bytes) :=
  obind (requests_post (gemini_request (prompt config) model_id)) client_answer.

(** The record made for an entry: success when the client returned
    non-empty bytes. *)
Definition entry_result (model_id : string) (config : AssetSpec) : GenResult :=
  match entry_answer model_id config with
  | Ret (Some (_ :: _)) => Success (filename config) (entry_path config)
  | _ => Failure
  end.

(** The events of a turn up to the answer of the client. *)
Definition turn_head (model_id image_id : string) (config : AssetSpec) : list event :=
  [EvPrint (MsgEntryHeader image_id (title config));
   EvPrint (MsgGenerating (title config) model_id);
   EvPost (gemini_request (prompt config) model_id)].

(** What a turn does after the answer of the client. *)
Definition turn_tail (model_id image_id : string) (config : AssetSpec) : list event :=
  match entry_answer model_id config with
  | Ret (Some (b :: bs)) =>
      [EvPrint (MsgEntryGenerated (length (b :: bs)));
       EvWrite (entry_path config) (b :: bs);
       EvPrint (MsgSaved (entry_path config))]
  | _ => [EvPrint (MsgEntryFailed image_id)]
  end.

Definition turn_fs (model_id : string) (config : AssetSpec) (fs : FS) : FS :=
  match entry_answer model_id config with
  | Ret (Some (b :: bs)) =>
      {| dirs := {[ OUTPUT_DIR ]} ∪ dirs fs;
         files := <[ entry_path config := b :: bs ]> (files fs) |}
  | _ => fs
  end.

Definition turn_icon (model_id image_id : string) (config : AssetSpec)
    (icon_path : option string) : option string :=
  match entry_result model_id config with
  | Success _ path => if String.eqb image_id "icon" then Some path else icon_path
  | Failure => icon_path
  end.

End Vocabulary.

(** ** Summary and icon files *)

Definition summary_line (entry : string * GenResult) : event :=
  EvPrint (match entry.2 with
           | Success fname _ => MsgSummaryOk entry.1 (Some fname)
           | Failure => MsgSummaryFail entry.1
           end).

(** The number of successful records. *)
Definition success_total (results : list (string * GenResult)) : nat :=
  length (List.filter (λ entry, succeeded entry.2) results).

(** The files that icon derivation writes. *)
Definition icon_size_paths : list string :=
  (λ size : Z, path_join OUTPUT_DIR ("icon" +:+ pretty size +:+ ".png")) <$> [16; 32; 48].


(** ** Logs of a whole run *)

(** A line that the client prints after its request. *)
Definition client_line (m : message) : Prop :=
  match m with
  | MsgHttpError _ _ | MsgNoCandidates | MsgNoImageData | MsgParseError _
  | MsgResponseDump _ => True
  | _ => False
  end.

(** An event log that only prints such lines. *)
Definition client_log (evs : list event) : Prop :=
  Forall (λ e, ∃ m, e = EvPrint m ∧ client_line m) evs.

(** The lines of the summary loop, in order: the identifier and, for a
    success, the file name. *)
Definition summary (evs : list event) : list (string * option string) :=
  omap (λ e, match e with
             | EvPrint (MsgSummaryOk image_id fname) => Some (image_id, fname)
             | EvPrint (MsgSummaryFail image_id) => Some (image_id, None)
             | _ => None
             end) evs.

(** The files after a sequence of writes, the first write first. *)
Definition apply_writes (ws : list (string * bytes)) (f : gmap string bytes)
  : gmap string bytes :=
  foldl (λ f w, <[ w.1 := w.2 ]> f) f ws.

(** A computation whose log holds every change that it makes to the files. *)
Definition logged {A : Type} (m : M A) : Prop :=
  ∀ fs, files (fs_of (m fs)) = apply_writes (writes (events_of (m fs))) (files fs).

(** The files of the catalog followed by the derived icon files. *)
Definition output_paths : list string :=
  (entry_path <$> IMAGE_PROMPTS.*2) ++ icon_size_paths.

Section RunVocabulary.
Context `{Platform}.

(** The icon step of [main], between the loop and the summary. *)
Definition derive_icons (icon_path : option string) : M unit :=
  match icon_path with
  | Some path =>
      let* present := path_exists path in
      if present then
        print MsgResizeHeader ;;
        create_icon_sizes path
      else ret tt
  | None => ret tt
  end.

(** The line of the summary for a catalog entry. *)
Definition entry_summary (model_id : string) (entry : string * AssetSpec)
  : string * option string :=
  (entry.1, match entry_result model_id entry.2 with
            | Success fname _ => Some fname
            | Failure => None
            end).

(** The write of a turn, if the client returned a picture. *)
Definition entry_write (model_id : string) (entry : string * AssetSpec)
  : option (string * bytes) :=
  match entry_answer model_id entry.2 with
  | Ret (Some (b :: bs)) => Some (entry_path entry.2, b :: bs)
  | _ => None
  end.

End RunVocabulary.

(** ** Further scenarios *)



(** A Pillow that fails for every size from 32 on. *)
Definition small_only_pillow : PillowModule :=
  {| Image := bytes;
     Image_open := λ content, Ret content;
     resize_save := λ _ size,
       if size <? 32 then Ret [Base64.to_byte (Z.to_N size)] else Raise ValueError |}.

Definition list_args : Args :=
  {| model := "gemini-3-pro"; list_models := true; target := "all" |}.

(** A file system in which the icon has been saved. *)
Definition icon_fs : FS :=
  {| dirs := {[ OUTPUT_DIR ]}; files := {[ entry_path icon_spec := abc ]} |}.








(** * Properties *)

(** ** Event logs *)

Lemma posts_app (a b : list event) : posts (a ++ b) = posts a ++ posts b.
Proof. apply omap_app. Qed.

Lemma writes_app (a b : list event) : writes (a ++ b) = writes a ++ writes b.
Proof. apply omap_app. Qed.

Lemma icon_derivations_app (a b : list event) :
  icon_derivations (a ++ b) = icon_derivations a ++ icon_derivations b.
Proof. apply omap_app. Qed.

Lemma printed_app (a b : list event) : printed (a ++ b) = printed a ++ printed b.
Proof. apply omap_app. Qed.

Lemma started_app (a b : list event) : started (a ++ b) = started a ++ started b.
Proof. apply omap_app. Qed.

Lemma posts_print (m : message) (evs : list event) : posts (EvPrint m :: evs) = posts evs.
Proof. reflexivity. Qed.

Lemma writes_print (m : message) (evs : list event) : writes (EvPrint m :: evs) = writes evs.
Proof. reflexivity. Qed.

Lemma icon_derivations_print (m : message) (evs : list event) :
  icon_derivations (EvPrint m :: evs) = icon_derivations evs.
Proof. reflexivity. Qed.

Lemma started_banner (model_id : string) (evs : list event) :
  started (EvPrint (MsgBanner model_id) :: evs) = started evs.
Proof. reflexivity. Qed.

Lemma quiet_nil : quiet [].
Proof. constructor. Qed.

Lemma quiet_print (m : message) (evs : list event) :
  log_line m → quiet evs → quiet (EvPrint m :: evs).
Proof. intros Hm Hq. constructor; eauto. Qed.

Lemma quiet_app (a b : list event) : quiet a → quiet b → quiet (a ++ b).
Proof. apply Forall_app_2. Qed.

Lemma quiet_silent (evs : list event) :
  quiet evs →
  posts evs = [] ∧ writes evs = [] ∧ icon_derivations evs = [] ∧ started evs = [].
Proof.
  induction 1 as [|e evs (m & -> & Hm) _ IH]; [done|].
  destruct IH as (Hp & Hw & Hi & Hs).
  unfold posts, writes, icon_derivations, started in *. simpl.
  repeat split; try done. by destruct m.
Qed.

#[local] Hint Resolve quiet_nil quiet_print quiet_app : core.
#[local] Hint Extern 1 (log_line _) => exact I : core.

(** ** Exceptions of the pure operations *)

Lemma py_get_catchable v k d e : py_get v k d = Raise e → catchable e.
Proof. destruct v; simpl; intros; simplify_eq; done. Qed.

Lemma py_index0_catchable v e : py_index0 v = Raise e → catchable e.
Proof. destruct v as [| | | |[|]|[|]|]; simpl; intros; simplify_eq; done. Qed.

Lemma py_getitem_catchable v k e : py_getitem v k = Raise e → catchable e.
Proof. destruct v; simpl; intros; repeat case_match; simplify_eq; done. Qed.

Lemma py_iter_catchable v e : py_iter v = Raise e → catchable e.
Proof. destruct v; simpl; intros; simplify_eq; done. Qed.

Lemma py_contains_catchable k v e : py_contains k v = Raise e → catchable e.
Proof. destruct v; simpl; intros; simplify_eq; done. Qed.

Lemma obind_Ret {A B} (o : outcome A) (k : A → outcome B) b :
  obind o k = Ret b → ∃ a, o = Ret a ∧ k a = Ret b.
Proof. destruct o; simpl; [eauto|done]. Qed.

Lemma obind_Raise {A B} (o : outcome A) (k : A → outcome B) e :
  obind o k = Raise e → o = Raise e ∨ ∃ a, o = Ret a ∧ k a = Raise e.
Proof. destruct o; simpl; [eauto|]. intros [= ->]. by left. Qed.

Lemma find_inline_data_catchable parts e :
  find_inline_data parts = Raise e → catchable e.
Proof.
  induction parts as [|part rest IH]; simpl; [done|].
  intros [Hc|(found & Hc & Hk)]%obind_Raise.
  - by eapply py_contains_catchable.
  - destruct found; [|by apply IH].
    apply obind_Raise in Hk as [Hg|(inline & _ & Hg)].
    + by eapply py_getitem_catchable.
    + by eapply py_get_catchable.
Qed.

(** ** Running the monad *)

Lemma bind_lift {A B} (o : outcome A) (k : A → M B) fs :
  bind (lift o) k fs = match o with Ret a => k a fs | Raise e => (Raise e, fs, []) end.
Proof. unfold bind, lift. destruct o; [|done]. by destruct (k a fs) as [[??]?]. Qed.

Lemma bind_ret {A B} (a : A) (k : A → M B) fs : bind (ret a) k fs = k a fs.
Proof. unfold bind, ret. by destruct (k a fs) as [[??]?]. Qed.

Lemma bind_print_aux {B} (e : event) (k : unit → M B) fs :
  bind (emit e) k fs = (result_of (k tt fs), fs_of (k tt fs), e :: events_of (k tt fs)).
Proof.
  unfold bind, emit, result_of, fs_of, events_of.
  by destruct (k tt fs) as [[??]?].
Qed.

Lemma bind_print {B} (m : message) (k : unit → M B) fs :
  bind (print m) k fs = (result_of (k tt fs), fs_of (k tt fs), EvPrint m :: events_of (k tt fs)).
Proof. apply bind_print_aux. Qed.

Lemma bind_emit {B} (e : event) (k : unit → M B) fs :
  bind (emit e) k fs = (result_of (k tt fs), fs_of (k tt fs), e :: events_of (k tt fs)).
Proof. apply (bind_print_aux e). Qed.

Lemma bind_write_file {B} path data (k : unit → M B) fs :
  bind (write_file path data) k fs =
    (result_of (k tt {| dirs := dirs fs; files := <[ path := data ]> (files fs) |}),
     fs_of (k tt {| dirs := dirs fs; files := <[ path := data ]> (files fs) |}),
     EvWrite path data ::
       events_of (k tt {| dirs := dirs fs; files := <[ path := data ]> (files fs) |})).
Proof.
  unfold bind, write_file, result_of, fs_of, events_of.
  by destruct (k tt _) as [[??]?].
Qed.

Lemma bind_read_file {B} path (k : bytes → M B) fs :
  bind (read_file path) k fs =
    match files fs !! path with
    | Some data => k data fs
    | None => (Raise FileNotFoundError, fs, [])
    end.
Proof.
  unfold bind, read_file. destruct (files fs !! path) as [data|]; [|done].
  by destruct (k data fs) as [[??]?].
Qed.

Lemma bind_path_exists {B} path (k : bool → M B) fs :
  bind (path_exists path) k fs = k (bool_decide (is_Some (files fs !! path))) fs.
Proof. unfold bind, path_exists. by destruct (k _ fs) as [[??]?]. Qed.

Lemma eta_run {A} (r : outcome A * FS * list event) :
  r = (result_of r, fs_of r, events_of r).
Proof. by destruct r as [[??]?]. Qed.

Lemma result_of_run {A} (o : outcome A) fs evs : result_of (o, fs, evs) = o.
Proof. reflexivity. Qed.

Lemma fs_of_run {A} (o : outcome A) fs evs : fs_of (o, fs, evs) = fs.
Proof. reflexivity. Qed.

Lemma events_of_run {A} (o : outcome A) fs evs : events_of (o, fs, evs) = evs.
Proof. reflexivity. Qed.

(** Running [m] and then [k]: the outcome of [m] decides. *)
Lemma bind_run {A B} (m : M A) (k : A → M B) fs :
  bind m k fs =
  match result_of (m fs) with
  | Ret a => (result_of (k a (fs_of (m fs))), fs_of (k a (fs_of (m fs))),
              events_of (m fs) ++ events_of (k a (fs_of (m fs))))
  | Raise e => (Raise e, fs_of (m fs), events_of (m fs))
  end.
Proof.
  unfold bind, result_of, fs_of, events_of.
  destruct (m fs) as [[[a|e] fs1] ev1]; simpl; [|done].
  by destruct (k a fs1) as [[??]?].
Qed.

(** ** The search for inline data *)

(** An object without the key lacks inline data. *)
Lemma lacks_inline_obj (d : list (string * json)) :
  dict_get d "inlineData" = None → lacks_inline (JObj d).
Proof. unfold lacks_inline. simpl. intros ->. by rewrite bool_decide_eq_false_2; [|intros [??]]. Qed.

Lemma find_inline_data_skip (pre rest : list json) :
  Forall lacks_inline pre → find_inline_data (pre ++ rest) = find_inline_data rest.
Proof. induction 1 as [|p pre Hp _ IH]; [done|]. simpl. by rewrite Hp. Qed.

(** The first part that is an object with the key decides. *)
Lemma find_inline_data_first (pre post : list json) (pfields : list (string * json)) (inline : json) :
  Forall lacks_inline pre →
  dict_get pfields "inlineData" = Some inline →
  find_inline_data (pre ++ JObj pfields :: post) = py_get inline "data" JNull.
Proof.
  intros Hpre Hin. rewrite find_inline_data_skip by done.
  simpl. rewrite Hin. by rewrite bool_decide_eq_true_2.
Qed.

(** A value found by the loop comes from the first part with the key. *)
Lemma find_inline_data_Ret (parts : list json) (v : json) :
  find_inline_data parts = Ret v →
  v = JNull ∨
  ∃ pre pfields post inline,
    parts = pre ++ JObj pfields :: post ∧ Forall lacks_inline pre ∧
    dict_get pfields "inlineData" = Some (JObj inline) ∧
    v = default JNull (dict_get inline "data").
Proof.
  induction parts as [|part parts IH]; simpl; [intros [= <-]; by left|].
  intros (found & Hc & Hk)%obind_Ret. destruct found.
  - apply obind_Ret in Hk as (inline & Hg & Hd). right.
    destruct part as [| | | | | |pfields]; simpl in Hg; try done.
    destruct (dict_get pfields "inlineData") as [x|] eqn:Hp; [|done].
    injection Hg as ->. destruct inline as [| | | | | |idict]; simpl in Hd; try done.
    injection Hd as <-. exists [], pfields, parts, idict. repeat split; auto.
  - destruct (IH Hk) as [->|(pre & pfields & post & inline & -> & Hpre & Hp & ->)]; [by left|].
    right. exists (part :: pre), pfields, post, inline. repeat split; auto.
Qed.

(** ** The generation client as a function of the response *)

Section Client.
Context `{Platform}.

Lemma first_candidate_parts_catchable candidates e :
  first_candidate_parts candidates = Raise e → catchable e.
Proof.
  unfold first_candidate_parts.
  intros [Hi|(first & _ & [Hg|(content & _ & Hg)]%obind_Raise)]%obind_Raise.
  - by eapply py_index0_catchable.
  - by eapply py_get_catchable.
  - by eapply py_get_catchable.
Qed.

Lemma b64decode_value_catchable v e : b64decode_value v = Raise e → catchable e.
Proof.
  destruct v; simpl; try (intros [= <-]; done).
  destruct (b64decode s); [done|]. intros [= <-]. by destruct (is_ascii s).
Qed.

Lemma bind_print_dump {B} result (k : unit → M B) fs :
  bind (print_dump result) k fs =
    match dump_print_error result with
    | None => (result_of (k tt fs), fs_of (k tt fs),
               EvPrint (MsgResponseDump result) :: events_of (k tt fs))
    | Some e => (Raise e, fs, [])
    end.
Proof.
  unfold print_dump. destruct (dump_print_error result) as [e|]; [done|].
  apply bind_print.
Qed.

(** The [try] block computes [parsed_image]; where that is [None], the
    dump is printed before the block returns. *)
Lemma extract_image_parsed result fs :
  ∃ evs, extract_image result fs =
           (match parsed_image result with
            | Ret None => dump_outcome result
            | o => o
            end, fs, evs) ∧ quiet evs.
Proof.
  assert (∀ m, log_line m →
    ∃ evs, (print m ;; print_dump result ;; ret None) fs
             = (dump_outcome result, fs, evs) ∧ quiet evs) as Hdump.
  { intros m Hm. rewrite bind_print, bind_print_dump. unfold dump_outcome.
    destruct (dump_print_error result) as [e|];
      rewrite ?result_of_run, ?fs_of_run, ?events_of_run; eexists; split; eauto. }
  unfold extract_image, parsed_image.
  rewrite bind_lift. destruct (py_get result "candidates" (JArr [])) as [candidates|e]; simpl;
    [|by eexists].
  destruct (truthy candidates); simpl; [|by apply Hdump].
  rewrite bind_lift. destruct (first_candidate_parts candidates) as [parts|e]; simpl;
    [|by eexists].
  rewrite bind_lift.
  destruct (let? items := py_iter parts in find_inline_data items) as [image_data|e]; simpl;
    [|by eexists].
  destruct (truthy image_data); simpl; [|by apply Hdump].
  rewrite bind_lift. destruct (b64decode_value image_data) as [decoded|e]; simpl; by eexists.
Qed.

Lemma parsed_image_catchable result e : parsed_image result = Raise e → catchable e.
Proof.
  unfold parsed_image. intros [Hg|(candidates & _ & Hk)]%obind_Raise.
  { by eapply py_get_catchable. }
  destruct (truthy candidates); simpl in Hk; [|done].
  apply obind_Raise in Hk as [Hp|(parts & _ & Hk)].
  { by eapply first_candidate_parts_catchable. }
  apply obind_Raise in Hk as [Hi|(image_data & _ & Hk)].
  { apply obind_Raise in Hi as [Hi|(items & _ & Hi)].
    - by eapply py_iter_catchable.
    - by eapply find_inline_data_catchable. }
  destruct (truthy image_data); simpl in Hk; [|done].
  apply obind_Raise in Hk as [Hd|(decoded & _ & Hd)]; [|done].
  by eapply b64decode_value_catchable.
Qed.

(** A call of the client leaves the file system alone, prints, posts
    exactly one request, and answers as [client_answer] says. *)
Lemma generate_run prompt title model_id fs :
  ∃ evs,
    generate_image_with_gemini prompt title model_id fs =
      (obind (requests_post (gemini_request prompt model_id)) client_answer, fs,
       EvPrint (MsgGenerating title model_id)
         :: EvPost (gemini_request prompt model_id) :: evs)
    ∧ quiet evs.
Proof.
  unfold generate_image_with_gemini, bind, print, emit, http_post, lift, ret, try_except.
  destruct (requests_post (gemini_request prompt model_id)) as [response|e]; simpl;
    [|by eexists].
  unfold client_answer. destruct (status_code response =? 200); simpl;
    [|eexists; split; eauto].
  destruct (body_json response) as [result|]; simpl; [|by eexists].
  destruct (extract_image_parsed result fs) as (evs & -> & Hq).
  unfold dump_outcome, print_dump, print, emit, raise.
  destruct (parsed_image result) as [[image|]|e] eqn:Hp.
  - by eexists.
  - destruct (dump_print_error result) as [e|]; [|by eexists].
    destruct e; simpl; (eexists; split; [reflexivity|]; auto).
  - apply parsed_image_catchable in Hp.
    destruct (dump_print_error result) as [e'|]; destruct e; try done; simpl;
      (eexists; split; [reflexivity|]; apply quiet_app; auto).
Qed.

(** *** The shape of an answer *)

Lemma parsed_image_parts result parts :
  response_parts result parts →
  parsed_image result =
    (let? image_data := find_inline_data parts in
     if negb (truthy image_data) then Ret None
     else let? decoded := b64decode_value image_data in Ret (Some decoded)).
Proof.
  intros (fields & cfields & cs & content & -> & Hc & Hcontent & Hparts).
  unfold parsed_image. simpl. rewrite Hc. simpl.
  unfold first_candidate_parts. simpl. rewrite Hcontent. simpl. by rewrite Hparts.
Qed.

(** The loop only finds a value in a list of parts: iterating over the keys
    of an object or the characters of a string finds nothing. *)
Lemma find_inline_data_strings (ss : list string) v :
  find_inline_data (JStr <$> ss) = Ret v → v = JNull.
Proof.
  induction ss as [|s ss IH]; simpl; [by intros [= <-]|].
  destruct (substringb "inlineData" s); simpl; [done|apply IH].
Qed.

Lemma first_candidate_parts_Ret candidates items :
  first_candidate_parts candidates = Ret (JArr items) → items ≠ [] →
  ∃ cfields cs content,
    candidates = JArr (JObj cfields :: cs) ∧
    dict_get cfields "content" = Some (JObj content) ∧
    dict_get content "parts" = Some (JArr items).
Proof.
  unfold first_candidate_parts.
  intros (first & Hi & (content & Hg & Hp)%obind_Ret)%obind_Ret Hne.
  destruct first as [| | | | | |cfields]; simpl in Hg; try done.
  destruct candidates as [| | | |[|??]|[|first cs]|]; simpl in Hi; try done.
  injection Hi as ->. injection Hg as <-.
  destruct (dict_get cfields "content") as [content|] eqn:Hc.
  - destruct content as [| | | | | |cdict]; simpl in Hp; try done.
    destruct (dict_get cdict "parts") as [p|] eqn:Hparts; simplify_eq; try done.
    by exists cfields, cs, cdict.
  - simpl in Hp. by simplify_eq.
Qed.

(** Bytes are only returned for an answer whose first part with the key
    [inlineData] carries a non-empty string that decodes to them. *)
Lemma parsed_image_Some result decoded :
  parsed_image result = Ret (Some decoded) →
  ∃ pre pfields post inline s,
    response_parts result (pre ++ JObj pfields :: post) ∧
    Forall lacks_inline pre ∧
    dict_get pfields "inlineData" = Some (JObj inline) ∧
    dict_get inline "data" = Some (JStr s) ∧ s ≠ "" ∧
    b64decode s = Some decoded.
Proof.
  unfold parsed_image. intros (candidates & Hg & Hk)%obind_Ret.
  destruct (truthy candidates); simpl in Hk; [|done].
  apply obind_Ret in Hk as (parts & Hparts & Hk).
  apply obind_Ret in Hk as (image_data & (items & Hiter & Hfind)%obind_Ret & Hk).
  destruct (truthy image_data) eqn:Htruthy; simpl in Hk; [|done].
  apply obind_Ret in Hk as (decoded' & Hdec & [= ->]).
  destruct image_data as [| | | |s| |]; simpl in Hdec; try done.
  destruct (b64decode s) as [d|] eqn:Hb; simplify_eq.
  assert (s ≠ "") as Hs by (intros ->; done).
  destruct parts as [| | | |str|arr|obj]; simpl in Hiter; simplify_eq.
  - change ((λ c, JStr (String c EmptyString)) <$> list_ascii_of_string str)
      with ((JStr ∘ (λ c, String c EmptyString)) <$> list_ascii_of_string str) in Hfind.
    rewrite list_fmap_compose in Hfind. by apply find_inline_data_strings in Hfind.
  - apply find_inline_data_Ret in Hfind
      as [?|(pre & pfields & post & inline & -> & Hpre & Hp & Hv)]; [done|].
    apply first_candidate_parts_Ret in Hparts
      as (cfields & cs & content & -> & Hcontent & Hparts); [|by destruct pre].
    destruct result as [| | | | | |fields]; simpl in Hg; try done.
    destruct (dict_get fields "candidates") as [c|] eqn:Hc; simplify_eq.
    exists pre, pfields, post, inline, s. repeat split; auto.
    + by exists fields, cfields, cs, content.
    + destruct (dict_get inline "data"); simpl in Hv; by simplify_eq.
  - by apply find_inline_data_strings in Hfind.
Qed.


End Client.

(** ** Dictionaries *)

Lemma dict_get_set_eq {V} (d : list (string * V)) k v :
  dict_get (dict_set d k v) k = Some v.
Proof.
  induction d as [|[k' v'] d IH]; simpl.
  - by rewrite String.eqb_refl.
  - destruct (String.eqb k' k) eqn:E; simpl; by rewrite E.
Qed.

Lemma dict_get_set_ne {V} (d : list (string * V)) k k' v :
  k ≠ k' → dict_get (dict_set d k v) k' = dict_get d k'.
Proof.
  intros Hne. induction d as [|[k0 v0] d IH]; simpl.
  - destruct (String.eqb_spec k k'); done.
  - destruct (String.eqb_spec k0 k) as [->|]; simpl; [|by rewrite IH].
    destruct (String.eqb_spec k k'); done.
Qed.

Lemma dict_get_None {V} (d : list (string * V)) k :
  dict_get d k = None ↔ k ∉ d.*1.
Proof.
  induction d as [|[k' v'] d IHd]; simpl.
  - split; [intros _; apply not_elem_of_nil|done].
  - rewrite not_elem_of_cons. destruct (String.eqb_spec k' k) as [->|Hne].
    + split; [done|]. by intros [? _].
    + rewrite IHd. split; [by split|by intros [_ ?]].
Qed.

Lemma dict_get_Some_elem {V} (d : list (string * V)) k v :
  dict_get d k = Some v → (k, v) ∈ d.
Proof.
  induction d as [|[k' v'] d IHd]; simpl; [done|].
  destruct (String.eqb_spec k' k) as [->|].
  - intros [= ->]. apply list_elem_of_here.
  - intros Hd. apply list_elem_of_further. auto.
Qed.


(** ** Persistence *)

Section Driver.
Context `{Platform}.

Lemma save_image_run image_data fname fs :
  save_image image_data fname fs =
    (Ret (path_join OUTPUT_DIR fname),
     {| dirs := {[ OUTPUT_DIR ]} ∪ dirs fs;
        files := <[ path_join OUTPUT_DIR fname := image_data ]> (files fs) |},
     [EvWrite (path_join OUTPUT_DIR fname) image_data;
      EvPrint (MsgSaved (path_join OUTPUT_DIR fname))]).
Proof. reflexivity. Qed.

(** ** One turn of the loop *)

Lemma main_loop_turn model_id image_id config rest results icon_path fs :
  ∃ evs, quiet evs ∧
    main_loop model_id ((image_id, config) :: rest) results icon_path fs =
    match entry_answer model_id config with
    | Raise e => (Raise e, fs, turn_head model_id image_id config ++ evs)
    | Ret (Some (b :: bs)) =>
        let path := path_join OUTPUT_DIR (filename config) in
        let r := main_loop model_id rest
                   (dict_set results image_id (Success (filename config) path))
                   (if String.eqb image_id "icon" then Some path else icon_path)
                   {| dirs := {[ OUTPUT_DIR ]} ∪ dirs fs;
                      files := <[ path := b :: bs ]> (files fs) |} in
        (result_of r, fs_of r,
         turn_head model_id image_id config ++ evs ++
         [EvPrint (MsgEntryGenerated (length (b :: bs)));
          EvWrite path (b :: bs); EvPrint (MsgSaved path)] ++ events_of r)
    | Ret _ =>
        let r := main_loop model_id rest (dict_set results image_id Failure)
                   icon_path fs in
        (result_of r, fs_of r,
         turn_head model_id image_id config ++ evs ++
         [EvPrint (MsgEntryFailed image_id)] ++ events_of r)
    end.
Proof.
  destruct (generate_run (prompt config) (title config) model_id fs) as (evs & Hg & Hq).
  exists evs. split; [done|].
  cbn [main_loop]. rewrite bind_print, bind_run, Hg.
  unfold result_of, fs_of, events_of, entry_answer, turn_head. cbn [fst snd].
  destruct (obind _ client_answer) as [[[|b bs]|]|e]; cbn [fst snd]; try done.
  - rewrite bind_print. unfold result_of, fs_of, events_of. cbn [fst snd].
    simpl. by rewrite <- ?app_assoc.
  - rewrite bind_print, bind_run, save_image_run.
    unfold result_of, fs_of, events_of. cbn [fst snd].
    simpl. by rewrite <- ?app_assoc.
  - rewrite bind_print. unfold result_of, fs_of, events_of. cbn [fst snd].
    simpl. by rewrite <- ?app_assoc.
Qed.


End Driver.

(** ** The whole loop *)

Section Loop.
Context `{Platform}.

(** A turn either raises the exception of the client, or records the
    result of the entry and goes on with the remaining entries. *)
Lemma main_loop_cons model_id image_id config rest results icon_path fs :
  ∃ evs, quiet evs ∧
    main_loop model_id ((image_id, config) :: rest) results icon_path fs =
    match entry_answer model_id config with
    | Raise e => (Raise e, fs, turn_head model_id image_id config ++ evs)
    | Ret _ =>
        let r := main_loop model_id rest
                   (dict_set results image_id (entry_result model_id config))
                   (turn_icon model_id image_id config icon_path)
                   (turn_fs model_id config fs) in
        (result_of r, fs_of r,
         turn_head model_id image_id config ++ evs ++
         turn_tail model_id image_id config ++ events_of r)
    end.
Proof.
  destruct (main_loop_turn model_id image_id config rest results icon_path fs)
    as (evs & Hq & Hturn).
  exists evs. split; [done|]. rewrite Hturn.
  unfold turn_tail, turn_fs, turn_icon, entry_result, entry_path.
  by destruct (entry_answer model_id config) as [[[|b bs]|]|e].
Qed.

Lemma turn_head_posts model_id image_id config :
  posts (turn_head model_id image_id config) = [gemini_request (prompt config) model_id].
Proof. reflexivity. Qed.

Lemma turn_head_started model_id image_id config :
  started (turn_head model_id image_id config) = [image_id].
Proof. reflexivity. Qed.

Lemma turn_tail_silent model_id image_id config :
  posts (turn_tail model_id image_id config) = [] ∧
  icon_derivations (turn_tail model_id image_id config) = [] ∧
  started (turn_tail model_id image_id config) = [].
Proof. unfold turn_tail. by destruct (entry_answer model_id config) as [[[|b bs]|]|e]. Qed.

Lemma turn_tail_writes model_id image_id config :
  writes (turn_tail model_id image_id config) =
    match entry_answer model_id config with
    | Ret (Some (b :: bs)) => [(entry_path config, b :: bs)]
    | _ => []
    end.
Proof. unfold turn_tail. by destruct (entry_answer model_id config) as [[[|b bs]|]|e]. Qed.

(** The loop starts the entries in order, posts one request for each entry
    that it starts, and never derives icons.  It stops early only when a
    client call raises. *)
Lemma main_loop_progress model_id targets results icon_path fs :
  let r := main_loop model_id targets results icon_path fs in
  icon_derivations (events_of r) = [] ∧
  ∃ n, started (events_of r) = (take n targets).*1 ∧
       posts (events_of r) = entry_request model_id <$> take n targets ∧
       (is_Some (targets !! 0%nat) → (0 < n)%nat) ∧
       (∀ x, result_of r = Ret x → n = length targets).
Proof.
  revert results icon_path fs.
  induction targets as [|[image_id config] rest IH]; intros results icon_path fs r.
  { split; [done|]. exists 0%nat. repeat split; try done. by intros [??]. }
  subst r.
  destruct (main_loop_cons model_id image_id config rest results icon_path fs)
    as (evs & Hq & ->).
  destruct (quiet_silent _ Hq) as (Hp & Hw & Hi & Hs).
  destruct (entry_answer model_id config) as [answer|e] eqn:Hans.
  - cbn zeta. rewrite events_of_run, result_of_run.
    destruct (IH (dict_set results image_id (entry_result model_id config))
                 (turn_icon model_id image_id config icon_path)
                 (turn_fs model_id config fs)) as (Hicon & n & Hst & Hposts & _ & Hn).
    destruct (turn_tail_silent model_id image_id config) as (Htp & Hti & Hts).
    split.
    + by rewrite !icon_derivations_app, Hi, Hti, Hicon.
    + exists (S n). rewrite !started_app, !posts_app, Hs, Hp, Hts, Htp, Hst, Hposts.
      repeat split; try done; [lia|].
      intros x Hx. simpl. f_equal. eauto.
  - rewrite events_of_run, result_of_run. split.
    + by rewrite icon_derivations_app, Hi.
    + exists 1%nat. rewrite started_app, posts_app, Hs, Hp. repeat split; try done. lia.
Qed.


End Loop.

(** ** What the loop leaves behind *)

Section Results.
Context `{Platform}.

(** After a loop over entries with distinct identifiers that returned,
    every entry has its own record, records of other identifiers are as
    before, and [icon_path] is set exactly by a successful ["icon"] entry. *)
Lemma main_loop_results model_id targets results icon_path fs results' icon_path' :
  NoDup targets.*1 →
  result_of (main_loop model_id targets results icon_path fs) = Ret (results', icon_path') →
  (∀ image_id config, (image_id, config) ∈ targets →
     dict_get results' image_id = Some (entry_result model_id config)) ∧
  (∀ image_id, image_id ∉ targets.*1 →
     dict_get results' image_id = dict_get results image_id) ∧
  icon_path' = match dict_get targets "icon" with
               | Some config => turn_icon model_id "icon" config icon_path
               | None => icon_path
               end.
Proof.
  revert results icon_path fs.
  induction targets as [|[image_id config] rest IH]; intros results icon_path fs Hnd Hret.
  { injection Hret as <- <-. repeat split; try done. intros ?? Hin. by apply elem_of_nil in Hin. }
  rewrite fmap_cons in Hnd. cbn [fst] in Hnd. apply NoDup_cons in Hnd as [Hfresh Hnd].
  destruct (main_loop_cons model_id image_id config rest results icon_path fs)
    as (evs & Hq & Hturn).
  rewrite Hturn in Hret. clear Hturn.
  destruct (entry_answer model_id config) as [answer|e] eqn:Hans; [|done].
  cbn zeta in Hret. rewrite result_of_run in Hret.
  destruct (IH _ _ _ Hnd Hret) as (Hin & Hout & Hicon). clear IH.
  repeat split.
  - intros i c [[= -> ->]|Hrest]%elem_of_cons.
    + by rewrite (Hout _ Hfresh), dict_get_set_eq.
    + by apply Hin.
  - intros i [Hne Hni]%not_elem_of_cons. rewrite (Hout _ Hni).
    by apply dict_get_set_ne.
  - rewrite Hicon. cbn [dict_get]. destruct (String.eqb image_id "icon") eqn:Heq.
    + apply String.eqb_eq in Heq as ->. apply dict_get_None in Hfresh.
      by rewrite Hfresh.
    + assert (turn_icon model_id image_id config icon_path = icon_path) as ->; [|done].
      unfold turn_icon. rewrite Heq. by destruct (entry_result model_id config).
Qed.


(** ** The summary *)

Lemma print_summary_run results success_count fs :
  print_summary results success_count fs =
    (Ret (success_count + success_total results)%nat, fs, summary_line <$> results).
Proof.
  revert success_count.
  induction results as [|[image_id [fname path|]] rest IH]; intros success_count.
  - unfold success_total. simpl. unfold ret. by rewrite Nat.add_0_r.
  - cbn [print_summary]. rewrite bind_print, IH.
    unfold success_total, result_of, fs_of, events_of. simpl.
    by rewrite Nat.add_succ_r.
  - cbn [print_summary]. rewrite bind_print, IH. done.
Qed.

Lemma success_total_le results : (success_total results ≤ length results)%nat.
Proof. apply List.filter_length_le. Qed.

(** A failed record is not counted. *)
Lemma success_total_failure results image_id :
  (image_id, Failure) ∈ results → (success_total results < length results)%nat.
Proof.
  unfold success_total. induction results as [|[i r] rest IH]; intros Hin.
  { by apply elem_of_nil in Hin. }
  apply elem_of_cons in Hin as [[= <- <-]|Hin]; simpl.
  - pose proof (List.filter_length_le (λ entry, succeeded entry.2) rest). lia.
  - specialize (IH Hin). destruct (succeeded r); simpl; lia.
Qed.

End Results.

(** ** Icon derivation and the end of [main] *)

Section Finish.
Context `{Platform}.

Lemma writes_only_silent paths evs :
  writes_only paths evs →
  posts evs = [] ∧ icon_derivations evs = [] ∧ started evs = [] ∧
  Forall (λ w, w.1 ∈ paths) (writes evs).
Proof.
  induction 1 as [|e evs He _ (Hp & Hi & Hs & Hw)]; [by repeat split|].
  unfold posts, icon_derivations, started, writes in *.
  destruct e as [m|r|path data|p]; simpl; try done.
  - repeat split; try done. by destruct m.
  - repeat split; try done. by constructor.
Qed.

Lemma resize_each_events pil img sizes fs :
  writes_only ((λ size : Z, path_join OUTPUT_DIR ("icon" +:+ pretty size +:+ ".png")) <$> sizes)
    (events_of (resize_each pil img sizes fs)).
Proof.
  revert fs. induction sizes as [|size rest IH]; intros fs; [constructor|].
  cbn [resize_each]. rewrite bind_lift.
  destruct (resize_save pil img size) as [resized|e]; [|constructor].
  rewrite bind_write_file, events_of_run, bind_print, events_of_run.
  constructor; [apply list_elem_of_here|]. constructor; [exact I|].
  eapply Forall_impl; [apply IH|].
  intros [m|r|path data|p]; try done. rewrite fmap_cons. apply list_elem_of_further.
Qed.

(** A call of [create_icon_sizes] is one icon derivation; whatever else it
    does is printing and writing the three icon files. *)
Lemma create_icon_sizes_events base_icon_path fs :
  ∃ evs, events_of (create_icon_sizes base_icon_path fs) = EvIconSizes base_icon_path :: evs ∧
         writes_only icon_size_paths evs.
Proof.
  unfold create_icon_sizes. rewrite bind_emit, events_of_run.
  eexists. split; [reflexivity|].
  destruct PIL as [pil|].
  - rewrite bind_read_file.
    destruct (files fs !! base_icon_path) as [content|]; [|constructor].
    rewrite bind_lift. destruct (Image_open pil content) as [img|e]; [|constructor].
    apply resize_each_events.
  - repeat constructor.
Qed.

(** The part of [main] after the loop derives icons at most once, and only
    for a path that the loop has set; it posts nothing and starts no entry. *)
Lemma finish_events results icon_path fs :
  ∃ derived evs,
    events_of (finish results icon_path fs) = derived ++ evs ∧
    writes_only [] evs ∧
    (derived = [] ∨
     ∃ path evs', icon_path = Some path ∧
                  derived = EvPrint MsgResizeHeader :: EvIconSizes path :: evs' ∧
                  writes_only icon_size_paths evs').
Proof.
  unfold finish. rewrite bind_run.
  assert (∀ fs',
    writes_only []
      (events_of ((let* success_count := print_summary results 0%nat in
                   print (MsgTally success_count (length IMAGE_PROMPTS)) ;;
                   print (MsgOutputDir OUTPUT_DIR) ;; print MsgNextSteps) fs'))) as Htail.
  { intros fs'. rewrite bind_run, print_summary_run, result_of_run, fs_of_run, !events_of_run.
    apply Forall_app_2.
    - apply Forall_fmap, Forall_forall. intros [i [f p|]] _; exact I.
    - repeat constructor. }
  destruct icon_path as [path|].
  - rewrite bind_path_exists.
    destruct (bool_decide (is_Some (files fs !! path))).
    + rewrite bind_print, !result_of_run, !fs_of_run, !events_of_run.
      destruct (create_icon_sizes_events path fs) as (evs' & Hev & Hw).
      rewrite Hev. cbn [app].
      destruct (result_of (create_icon_sizes path fs)) as [[]|e].
      * exists (EvPrint MsgResizeHeader :: EvIconSizes path :: evs'). eexists.
        split; [reflexivity|]. split; [apply Htail|]. right. by exists path, evs'.
      * exists (EvPrint MsgResizeHeader :: EvIconSizes path :: evs'), [].
        split; [by rewrite app_nil_r|]. split; [constructor|]. right. by exists path, evs'.
    + unfold ret at 1 2 3. rewrite !result_of_run, !fs_of_run, !events_of_run.
      exists []. eexists. split; [reflexivity|]. split; [apply Htail|]. by left.
  - unfold ret at 1 2 3. rewrite !result_of_run, !fs_of_run, !events_of_run.
    exists []. eexists. split; [reflexivity|]. split; [apply Htail|]. by left.
Qed.

(** [main] for a request to generate: the banner, the loop over the
    resolved targets, and, when the loop returns, the end of [main]. *)
Lemma main_run args fs model_id targets :
  list_models args = false →
  dict_get AVAILABLE_MODELS (model args) = Some model_id →
  resolve_targets (target args) = Ret targets →
  main args fs =
    match result_of (main_loop model_id targets [] None fs) with
    | Ret (results, icon_path) =>
        (result_of (finish results icon_path (fs_of (main_loop model_id targets [] None fs))),
         fs_of (finish results icon_path (fs_of (main_loop model_id targets [] None fs))),
         EvPrint (MsgBanner model_id) ::
           events_of (main_loop model_id targets [] None fs) ++
           events_of (finish results icon_path (fs_of (main_loop model_id targets [] None fs))))
    | Raise e =>
        (Raise e, fs_of (main_loop model_id targets [] None fs),
         EvPrint (MsgBanner model_id) :: events_of (main_loop model_id targets [] None fs))
    end.
Proof.
  intros Hl Hm Ht. unfold main. rewrite Hl, Hm, bind_lift, bind_print, Ht, bind_lift, bind_run.
  destruct (result_of (main_loop model_id targets [] None fs)) as [[results icon_path]|e];
    by rewrite ?result_of_run, ?fs_of_run, ?events_of_run.
Qed.

End Finish.

(** ** The client on a response *)

Section ClientCases.
Context `{Platform}.



Lemma client_answer_200 response result :
  status_code response = 200 → body_json response = Some result →
  client_answer response =
    match parsed_image result with
    | Ret (Some image) => Ret (Some image)
    | _ => dump_outcome result
    end.
Proof. intros Hs Hb. unfold client_answer. by rewrite Hs, Hb. Qed.

(** The answer for a response whose first part with the key carries the
    value [data] (or none) under ["data"]. *)
Lemma parsed_image_first result pre pfields post inline :
  response_parts result (pre ++ JObj pfields :: post) →
  Forall lacks_inline pre →
  dict_get pfields "inlineData" = Some (JObj inline) →
  parsed_image result =
    match dict_get inline "data" with
    | Some (JStr s) =>
        if String.eqb s "" then Ret None
        else match b64decode s with
             | Some decoded => Ret (Some decoded)
             | None => Raise (if is_ascii s then BinasciiError else ValueError)
             end
    | Some v => if truthy v then Raise TypeError else Ret None
    | None => Ret None
    end.
Proof.
  intros Hparts Hpre Hin. rewrite (parsed_image_parts _ _ Hparts).
  rewrite (find_inline_data_first _ _ _ _ Hpre Hin). simpl.
  destruct (dict_get inline "data") as [v|]; [|done].
  destruct v as [|b|z|bits|s|items|fields]; simpl; try done.
  - by destruct b.
  - by destruct (z =? 0).
  - by destruct (N.land bits (2 ^ 63 - 1) =? 0)%N.
  - destruct (String.eqb s ""); simpl; [done|]. by destruct (b64decode s).
  - by destruct items.
  - by destruct fields.
Qed.



End ClientCases.

(** ** Facts about the catalog *)

Lemma catalog_ids : IMAGE_PROMPTS.*1 =
  ["icon"; "promo_small"; "promo_large"; "screenshot_popup"; "screenshot_result";
   "screenshot_options"].
Proof. reflexivity. Qed.

Lemma catalog_ids_distinct : NoDup IMAGE_PROMPTS.*1.
Proof. rewrite catalog_ids. apply (bool_decide_unpack _). by vm_compute. Qed.

Lemma all_is_no_entry : dict_get IMAGE_PROMPTS "all" = None.
Proof. reflexivity. Qed.


Lemma resolve_targets_entry target config :
  dict_get IMAGE_PROMPTS target = Some config →
  resolve_targets target = Ret [(target, config)].
Proof.
  intros Hget. unfold resolve_targets. destruct (String.eqb_spec target "all") as [->|_].
  - by rewrite all_is_no_entry in Hget.
  - by rewrite Hget.
Qed.

(** ** Effects of the end of [main] *)

Section FinishEffects.
Context `{Platform}.

Lemma finish_effects results icon_path fs :
  posts (events_of (finish results icon_path fs)) = [] ∧
  started (events_of (finish results icon_path fs)) = [] ∧
  Forall (λ w, w.1 ∈ icon_size_paths) (writes (events_of (finish results icon_path fs))) ∧
  (icon_derivations (events_of (finish results icon_path fs)) = [] ∧
   (icon_path = None → writes (events_of (finish results icon_path fs)) = [])
   ∨ ∃ path, icon_path = Some path ∧
             icon_derivations (events_of (finish results icon_path fs)) = [path]).
Proof.
  destruct (finish_events results icon_path fs) as (derived & evs & -> & Hevs & Hderived).
  destruct (writes_only_silent _ _ Hevs) as (Hp & Hi & Hs & Hw).
  assert (writes evs = []) as Hnil.
  { destruct (writes evs) as [|w ws]; [done|].
    apply Forall_cons in Hw as [Hin _]. by apply elem_of_nil in Hin. }
  rewrite posts_app, started_app, writes_app, icon_derivations_app, Hp, Hi, Hs, Hnil, !app_nil_r.
  destruct Hderived as [->|(path & evs' & -> & -> & Hevs')].
  - split; [done|]. split; [done|]. split; [constructor|]. left. by split.
  - destruct (writes_only_silent _ _ Hevs') as (Hp' & Hi' & Hs' & Hw').
    change (EvPrint MsgResizeHeader :: EvIconSizes path :: evs')
      with ([EvPrint MsgResizeHeader; EvIconSizes path] ++ evs').
    rewrite posts_app, started_app, writes_app, icon_derivations_app, Hp', Hi', Hs'.
    split; [done|]. split; [done|]. split; [exact Hw'|].
    right. by exists path.
Qed.

End FinishEffects.

(** ** The scenario answers *)

Lemma answer_parts (parts : list json) : response_parts (answer parts) parts.
Proof. by exists (fields_of (answer parts)), (candidate_of parts), [], (content_of parts). Qed.


(** * The claims *)

Section Claims.
Context `{Platform}.

(** C3 (amended): for a response with status 200 and a JSON body whose
    [candidates[0].content.parts] is a list in which every part before the
    first part with the key [inlineData] is a value on which the test
    ['inlineData' in part] is false (an object without the key, a string or
    a list that does not hold it), and in which that first part is an object
    whose [inlineData] is an object with a non-empty string under [data]
    that base64-decodes, the client returns the decoded bytes, whatever the
    later parts are.  ([lacks_inline] is that test being false; on a part
    such as [null] the test raises, and the client returns nothing.) *)
Theorem client_returns_first_inline_payload
    prompt title model_id fs response result pre pfields post inline payload decoded :
  requests_post (gemini_request prompt model_id) = Ret response →
  status_code response = 200 →
  body_json response = Some result →
  response_parts result (pre ++ JObj pfields :: post) →
  Forall lacks_inline pre →
  dict_get pfields "inlineData" = Some (JObj inline) →
  dict_get inline "data" = Some (JStr payload) →
  payload ≠ "" →
  b64decode payload = Some decoded →
  result_of (generate_image_with_gemini prompt title model_id fs) = Ret (Some decoded).
Proof.
  intros Hpost Hstatus Hbody Hparts Hpre Hin Hdata Hne Hdec.
  destruct (generate_run prompt title model_id fs) as (evs & -> & _).
  rewrite result_of_run, Hpost. simpl.
  rewrite (client_answer_200 _ _ Hstatus Hbody).
  rewrite (parsed_image_first _ _ _ _ _ Hparts Hpre Hin), Hdata, Hdec.
  by destruct (String.eqb_spec payload "").
Qed.



(** C4: when the provider returns a payload that base64-decodes, what the
    driver persists for the entry is exactly the decoded bytes: the
    persistence step stores its argument unchanged, and a turn either
    writes the decoded bytes to the file of the entry or, for an empty
    payload or empty bytes, writes nothing. *)
Theorem persisted_bytes_are_the_decoded_payload
    model_id image_id config fs response result pre pfields post inline payload decoded :
  requests_post (gemini_request (prompt config) model_id) = Ret response →
  status_code response = 200 →
  body_json response = Some result →
  response_parts result (pre ++ JObj pfields :: post) →
  Forall lacks_inline pre →
  dict_get pfields "inlineData" = Some (JObj inline) →
  dict_get inline "data" = Some (JStr payload) →
  b64decode payload = Some decoded →
  (∀ data fs0,
     files (fs_of (save_image data (filename config) fs0)) !! entry_path config = Some data ∧
     writes (events_of (save_image data (filename config) fs0)) = [(entry_path config, data)]) ∧
  ((payload ≠ "" ∧ decoded ≠ [] ∧
    writes (events_of (main_loop model_id [(image_id, config)] [] None fs))
      = [(entry_path config, decoded)] ∧
    files (fs_of (main_loop model_id [(image_id, config)] [] None fs)) !! entry_path config
      = Some decoded)
   ∨
   ((payload = "" ∨ decoded = []) ∧
    writes (events_of (main_loop model_id [(image_id, config)] [] None fs)) = [] ∧
    fs_of (main_loop model_id [(image_id, config)] [] None fs) = fs)).
Proof.
  intros Hpost Hstatus Hbody Hparts Hpre Hin Hdata Hdec.
  split.
  { intros data fs0. rewrite save_image_run, fs_of_run, events_of_run. simpl.
    split; [apply lookup_insert_eq|done]. }
  assert (entry_answer model_id config
          = if String.eqb payload "" then dump_outcome result else Ret (Some decoded))
    as Hans.
  { unfold entry_answer. rewrite Hpost. simpl.
    rewrite (client_answer_200 _ _ Hstatus Hbody).
    rewrite (parsed_image_first _ _ _ _ _ Hparts Hpre Hin), Hdata, Hdec.
    by destruct (String.eqb payload ""). }
  destruct (main_loop_cons model_id image_id config [] [] None fs) as (evs & Hq & ->).
  destruct (quiet_silent _ Hq) as (_ & Hw & _).
  pose proof (turn_tail_writes model_id image_id config) as Htail.
  unfold turn_fs. rewrite Hans in *. cbn [main_loop]. unfold ret.
  destruct (String.eqb_spec payload "") as [->|Hne].
  - right. unfold dump_outcome in *.
    destruct (dump_print_error result) as [e|];
      rewrite ?result_of_run, ?fs_of_run, ?events_of_run, !writes_app, Hw, ?Htail;
      repeat split; auto.
  - rewrite ?result_of_run, ?fs_of_run, ?events_of_run, !writes_app, Hw, Htail.
    destruct decoded as [|b bs].
    + right. repeat split; auto.
    + left. repeat split; try done. simpl. apply lookup_insert_eq.
Qed.


(** C6: with a single catalog entry as target, the driver starts exactly
    that entry and posts exactly the request of that entry; whatever it
    writes is the file of that entry or, for the target ["icon"], one of
    the derived icon files. *)
Theorem single_target_processes_only_that_entry args fs model_id config :
  list_models args = false →
  dict_get AVAILABLE_MODELS (model args) = Some model_id →
  dict_get IMAGE_PROMPTS (target args) = Some config →
  started (events_of (main args fs)) = [target args] ∧
  posts (events_of (main args fs)) = [gemini_request (prompt config) model_id] ∧
  Forall (λ w, w.1 = entry_path config ∨
               (target args = "icon" ∧ w.1 ∈ icon_size_paths))
         (writes (events_of (main args fs))).
Proof.
  intros Hlist Hmodel Hentry.
  rewrite (main_run args fs model_id [(target args, config)] Hlist Hmodel)
    by (by apply resolve_targets_entry).
  destruct (main_loop_cons model_id (target args) config [] [] None fs) as (evs & Hq & ->).
  destruct (quiet_silent _ Hq) as (Hp & Hw & _ & Hs).
  destruct (turn_tail_silent model_id (target args) config) as (Htp & _ & Hts).
  pose proof (turn_tail_writes model_id (target args) config) as Htw.
  destruct (entry_answer model_id config) as [answer|e] eqn:Hans.
  - cbn [main_loop]. unfold ret. cbn zeta.
    rewrite !result_of_run, !fs_of_run, !events_of_run.
    destruct (finish_effects (dict_set [] (target args) (entry_result model_id config))
                (turn_icon model_id (target args) config None)
                (turn_fs model_id config fs)) as (Hfp & Hfs & Hfw & Hicon).
    rewrite started_banner, posts_print, writes_print.
    rewrite !started_app, !posts_app, !writes_app, Hfp, Hfs, Hp, Hw, Hs, Htp, Hts, Htw.
    split; [done|]. split; [done|].
    apply Forall_app. split.
    + destruct answer as [[|b bs]|]; repeat constructor.
    + destruct Hicon as [[_ Hnone]|(path & Hsome & _)].
      * unfold turn_icon in *. destruct (entry_result model_id config).
        -- destruct (String.eqb_spec (target args) "icon") as [Heq|_].
           ++ eapply Forall_impl; [exact Hfw|]. intros w Hin. right. by split.
           ++ rewrite Hnone by done. constructor.
        -- rewrite Hnone by done. constructor.
      * unfold turn_icon in Hsome. destruct (entry_result model_id config); [|done].
        destruct (String.eqb_spec (target args) "icon") as [Heq|_]; [|done].
        eapply Forall_impl; [exact Hfw|]. intros w Hin. right. by split.
  - rewrite result_of_run, !events_of_run.
    rewrite started_banner, posts_print, writes_print.
    rewrite !started_app, !posts_app, !writes_app, Hp, Hw, Hs.
    split; [done|]. split; [done|]. constructor.
Qed.

(** C9: in every run of [main], icons are derived at most once, and only
    when the target is ["icon"] or ["all"] and the loop has returned with a
    successful record for the ["icon"] entry; the derivation then starts
    from the saved icon file. *)
Theorem icon_derivation_only_after_icon_success args fs :
  (length (icon_derivations (events_of (main args fs))) ≤ 1)%nat ∧
  (icon_derivations (events_of (main args fs)) ≠ [] →
   (target args = "icon" ∨ target args = "all") ∧
   ∃ model_id targets results config,
     dict_get AVAILABLE_MODELS (model args) = Some model_id ∧
     resolve_targets (target args) = Ret targets ∧
     dict_get IMAGE_PROMPTS "icon" = Some config ∧
     result_of (main_loop model_id targets [] None fs)
       = Ret (results, Some (entry_path config)) ∧
     dict_get results "icon" = Some (Success (filename config) (entry_path config)) ∧
     icon_derivations (events_of (main args fs)) = [entry_path config]).
Proof.
  destruct (list_models args) eqn:Hlist.
  { unfold main. rewrite Hlist.
    change (icon_derivations
              (events_of ((print_models AVAILABLE_MODELS ;; raise (SystemExit 0)) fs)))
      with (@nil string).
    split; [simpl; lia|done]. }
  destruct (dict_get AVAILABLE_MODELS (model args)) as [model_id|] eqn:Hmodel.
  2: { unfold main. rewrite Hlist, Hmodel, bind_lift. split; [simpl; lia|done]. }
  destruct (resolve_targets (target args)) as [targets|e] eqn:Htargets.
  2: { unfold main. rewrite Hlist, Hmodel, bind_lift, bind_print, Htargets, bind_lift.
       rewrite events_of_run. split; [simpl; lia|done]. }
  rewrite (main_run args fs model_id targets Hlist Hmodel Htargets).
  destruct (main_loop_progress model_id targets [] None fs) as (Hloop & _).
  destruct (result_of (main_loop model_id targets [] None fs))
    as [[results icon_path]|e] eqn:Hret;
    rewrite events_of_run, icon_derivations_print, ?icon_derivations_app, Hloop.
  2: { split; [simpl; lia|done]. }
  destruct (finish_effects results icon_path (fs_of (main_loop model_id targets [] None fs)))
    as (_ & _ & _ & [[-> _]|(path & -> & ->)]).
  { split; [simpl; lia|done]. }
  split; [simpl; lia|]. intros _.
  assert (NoDup targets.*1 ∧
          (target args = "icon" ∨ target args = "all") ∧
          ∀ config, dict_get targets "icon" = Some config →
                    dict_get IMAGE_PROMPTS "icon" = Some config) as (Hnd & Htarget & Hcat).
  { unfold resolve_targets in Htargets.
    destruct (String.eqb_spec (target args) "all") as [Hall|_].
    - injection Htargets as <-. split; [apply catalog_ids_distinct|]. split; [by right|done].
    - destruct (dict_get IMAGE_PROMPTS (target args)) as [c|] eqn:Hget; [|done].
      injection Htargets as <-.
      destruct (main_loop_results model_id [(target args, c)] [] None fs results (Some path)
                  (NoDup_singleton (target args)) Hret) as (_ & _ & Hicon).
      revert Hicon. cbn [dict_get].
      destruct (String.eqb_spec (target args) "icon") as [Heq|Hne]; [|done].
      intros _. split; [apply NoDup_singleton|]. split; [by left|].
      intros c' [= <-]. by rewrite <- Heq. }
  destruct (main_loop_results _ _ _ _ _ _ _ Hnd Hret) as (Hrec & _ & Hicon).
  destruct (dict_get targets "icon") as [config|] eqn:Hget; [|done].
  unfold turn_icon in Hicon.
  pose proof (Hrec _ _ (dict_get_Some_elem _ _ _ Hget)) as Hresult.
  destruct (entry_result model_id config) as [fname p|] eqn:Hres; [|done].
  unfold entry_result in Hres.
  destruct (entry_answer model_id config) as [[[|b bs]|]|e]; try done.
  injection Hres as <- <-. cbn in Hicon. injection Hicon as ->.
  split; [done|]. exists model_id, targets, results, config.
  repeat split; auto.
Qed.

End Claims.

(** * The claims on concrete runs *)

(** C1: the tally of the summary has the size of the whole catalog as its
    denominator.  With the single target ["icon"] and a provider that
    returns a picture, the icon and its three sizes are written and the
    summary reports 1 of 6, not 1 of 1. *)
Theorem icon_run_tally_counts_the_whole_catalog :
  let run := @main (scripted image_provider (Some stub_pillow)) icon_args empty_fs in
  result_of run = Ret tt ∧
  started (events_of run) = ["icon"] ∧
  (writes (events_of run)).*1 =
    ["assets/icon128.png"; "assets/icon16.png"; "assets/icon32.png"; "assets/icon48.png"] ∧
  tallies (events_of run) = [(1%nat, 6%nat)].
Proof. by vm_compute. Qed.

(** C2: the exception of [response.json()] is raised outside the [try]
    block.  For a response with status 200 whose body is not JSON the
    client raises [JSONDecodeError], and a run with target ["all"] ends
    with that exception in the first turn. *)
Theorem non_json_body_escapes_the_client :
  result_of (@generate_image_with_gemini (scripted html_provider None)
               (prompt icon_spec) (title icon_spec) pro_model empty_fs)
    = Raise JSONDecodeError ∧
  result_of (@main (scripted html_provider None) all_args empty_fs)
    = Raise JSONDecodeError ∧
  started (events_of (@main (scripted html_provider None) all_args empty_fs)) = ["icon"] ∧
  tallies (events_of (@main (scripted html_provider None) all_args empty_fs)) = [].
Proof. by vm_compute. Qed.

(** C3 (as stated) fails: in this answer the first part that carries inline
    data is the second part, with a payload that decodes to [ABC], but the
    first part has the key [inlineData] without [data], and the client
    returns an absent result. *)
Lemma dataless_first_part_hides_the_payload :
  response_parts (answer dataless_first_parts) dataless_first_parts ∧
  first_data_part dataless_first_parts "QUJD" ∧
  Base64.decode "QUJD" = Some abc ∧
  result_of (@generate_image_with_gemini (scripted dataless_first_provider None)
               (prompt icon_spec) (title icon_spec) pro_model empty_fs)
    = Ret None ∧
  result_of (@generate_image_with_gemini (scripted dataless_first_provider None)
               (prompt icon_spec) (title icon_spec) pro_model empty_fs)
    ≠ Ret (Some abc).
Proof.
  split; [apply answer_parts|]. split; [|split; [by vm_compute|split; [by vm_compute|]]].
  - exists [JObj [("inlineData", JObj [("mimeType", JStr "image/png")])]],
           (inline_part "QUJD"), [].
    split; [reflexivity|]. split.
    + repeat constructor. intros payload (pfields & inline & Heq & Hin & Hdata).
      injection Heq as <-. simpl in Hin. injection Hin as <-. by simpl in Hdata.
    + by eexists _, _.
  - by vm_compute.
Qed.

(** ** Witnesses *)

Lemma client_returns_first_inline_payload_witness :
  result_of (@generate_image_with_gemini (scripted image_provider None)
               (prompt icon_spec) (title icon_spec) pro_model empty_fs)
    = Ret (Some abc).
Proof.
  apply (@client_returns_first_inline_payload (scripted image_provider None)
           (prompt icon_spec) (title icon_spec) pro_model empty_fs
           (ok_response (answer [JObj [("text", JStr "Here is your image.")];
                                 inline_part "QUJD"]))
           (answer [JObj [("text", JStr "Here is your image.")]; inline_part "QUJD"])
           [JObj [("text", JStr "Here is your image.")]]
           [("inlineData", JObj [("mimeType", JStr "image/png"); ("data", JStr "QUJD")])]
           []
           [("mimeType", JStr "image/png"); ("data", JStr "QUJD")]
           "QUJD" abc).
  - reflexivity.
  - reflexivity.
  - reflexivity.
  - apply answer_parts.
  - repeat constructor.
  - reflexivity.
  - reflexivity.
  - discriminate.
  - vm_compute. reflexivity.
Defined.



Lemma persisted_bytes_are_the_decoded_payload_witness :
  writes (events_of (@main_loop (scripted image_provider None) pro_model
                       [("icon", icon_spec)] [] None empty_fs))
    = [(entry_path icon_spec, abc)] ∧
  files (fs_of (@main_loop (scripted image_provider None) pro_model
                  [("icon", icon_spec)] [] None empty_fs)) !! entry_path icon_spec
    = Some abc.
Proof.
  assert (Forall lacks_inline [JObj [("text", JStr "Here is your image.")]]) as Hpre
    by repeat constructor.
  assert (Base64.decode "QUJD" = Some abc) as Hdecode by (vm_compute; reflexivity).
  destruct (proj2 (@persisted_bytes_are_the_decoded_payload (scripted image_provider None)
                     pro_model "icon" icon_spec empty_fs
                     (ok_response (answer [JObj [("text", JStr "Here is your image.")];
                                           inline_part "QUJD"]))
                     (answer [JObj [("text", JStr "Here is your image.")];
                              inline_part "QUJD"])
                     [JObj [("text", JStr "Here is your image.")]]
                     [("inlineData",
                       JObj [("mimeType", JStr "image/png"); ("data", JStr "QUJD")])]
                     []
                     [("mimeType", JStr "image/png"); ("data", JStr "QUJD")]
                     "QUJD" abc
                     eq_refl eq_refl eq_refl
                     (answer_parts _)
                     Hpre eq_refl eq_refl Hdecode))
    as [(_ & _ & Hwrites & Hfile)|([Hpayload|Hdecoded] & _)].
  - split; [exact Hwrites|exact Hfile].
  - discriminate Hpayload.
  - discriminate Hdecoded.
Defined.


Lemma single_target_processes_only_that_entry_witness :
  started (events_of (@main (scripted image_provider (Some stub_pillow)) icon_args empty_fs))
    = ["icon"].
Proof.
  refine (proj1 (@single_target_processes_only_that_entry
                   (scripted image_provider (Some stub_pillow))
                   icon_args empty_fs pro_model icon_spec _ _ _)).
  - reflexivity.
  - reflexivity.
  - reflexivity.
Defined.

(** * Further properties *)

(** ** Logs *)

Lemma summary_app (a b : list event) : summary (a ++ b) = summary a ++ summary b.
Proof. apply omap_app. Qed.

Lemma tallies_app (a b : list event) : tallies (a ++ b) = tallies a ++ tallies b.
Proof. apply omap_app. Qed.

Lemma client_log_quiet (evs : list event) : client_log evs → quiet evs.
Proof.
  intros Hlog. eapply Forall_impl; [exact Hlog|].
  intros e (m & -> & Hm). exists m. split; [done|]. by destruct m.
Qed.

Lemma client_log_silent (evs : list event) :
  client_log evs → summary evs = [] ∧ tallies evs = [].
Proof.
  induction 1 as [|e evs (m & -> & Hm) _ [IHs IHt]]; [done|].
  unfold summary, tallies in *. simpl. by destruct m.
Qed.

(** ** The client, line by line *)

Section ClientLog.
Context `{Platform}.

Lemma bind_http_post {B} (r : Request) (k : Response → M B) fs :
  bind (http_post r) k fs =
    match requests_post r with
    | Ret response =>
        (result_of (k response fs), fs_of (k response fs),
         EvPost r :: events_of (k response fs))
    | Raise e => (Raise e, fs, [EvPost r])
    end.
Proof.
  unfold bind, http_post, result_of, fs_of, events_of.
  destruct (requests_post r) as [response|e]; [|done].
  by destruct (k response fs) as [[??]?].
Qed.

(** An exception inside the [try] block is raised before any line of the
    block is printed. *)
Lemma extract_image_raise result fs e :
  parsed_image result = Raise e → extract_image result fs = (Raise e, fs, []).
Proof.
  unfold extract_image, parsed_image.
  rewrite bind_lift. destruct (py_get result "candidates" (JArr [])) as [candidates|e0]; simpl;
    [|by intros [= ->]].
  destruct (truthy candidates); simpl; [|done].
  rewrite bind_lift. destruct (first_candidate_parts candidates) as [parts|e0]; simpl;
    [|by intros [= ->]].
  rewrite bind_lift.
  destruct (let? items := py_iter parts in find_inline_data items) as [image_data|e0]; simpl;
    [|by intros [= ->]].
  destruct (truthy image_data); simpl; [|done].
  rewrite bind_lift. destruct (b64decode_value image_data) as [decoded|e0]; simpl; [done|].
  by intros [= ->].
Qed.

(** The run of the client on a response with status 200 and a JSON body. *)
Lemma generate_200 prompt title model_id fs response result :
  requests_post (gemini_request prompt model_id) = Ret response →
  status_code response = 200 →
  body_json response = Some result →
  generate_image_with_gemini prompt title model_id fs =
    let r := try_except (extract_image result)
               (λ e, print (MsgParseError e) ;; print_dump result ;; ret None) fs in
    (result_of r, fs_of r,
     EvPrint (MsgGenerating title model_id) :: EvPost (gemini_request prompt model_id)
       :: events_of r).
Proof.
  intros Hpost Hstatus Hbody.
  unfold generate_image_with_gemini.
  rewrite bind_print, bind_http_post, Hpost, Hstatus. cbn [Z.eqb Pos.eqb negb].
  rewrite Hbody, bind_lift. by rewrite !result_of_run, !fs_of_run, !events_of_run.
Qed.

(** The handler: the line of the exception, then the dump. *)
Lemma handler_run result e fs :
  (print (MsgParseError e) ;; print_dump result ;; ret (@None bytes)) fs =
    match dump_print_error result with
    | None => (Ret None, fs,
               [EvPrint (MsgParseError e); EvPrint (MsgResponseDump result)])
    | Some e' => (Raise e', fs, [EvPrint (MsgParseError e)])
    end.
Proof.
  rewrite bind_print, bind_print_dump. by destruct (dump_print_error result).
Qed.

(** An exception of the [try] block is caught and reported; the dump that
    the handler prints decides how the client ends. *)
Lemma generate_caught prompt title model_id fs response result e :
  requests_post (gemini_request prompt model_id) = Ret response →
  status_code response = 200 →
  body_json response = Some result →
  parsed_image result = Raise e →
  generate_image_with_gemini prompt title model_id fs =
    match dump_print_error result with
    | None =>
        (Ret None, fs,
         [EvPrint (MsgGenerating title model_id); EvPost (gemini_request prompt model_id);
          EvPrint (MsgParseError e); EvPrint (MsgResponseDump result)])
    | Some e' =>
        (Raise e', fs,
         [EvPrint (MsgGenerating title model_id); EvPost (gemini_request prompt model_id);
          EvPrint (MsgParseError e)])
    end.
Proof.
  intros Hpost Hstatus Hbody Hraise.
  rewrite (generate_200 _ _ _ _ _ _ Hpost Hstatus Hbody).
  unfold try_except. rewrite (extract_image_raise _ _ _ Hraise).
  pose proof (parsed_image_catchable _ _ Hraise) as Hc.
  destruct e; try done; rewrite handler_run; by destruct (dump_print_error result).
Qed.

Lemma handler_log result e fs :
  client_log (events_of ((print (MsgParseError e) ;; print_dump result ;;
                          ret (@None bytes)) fs)).
Proof.
  rewrite handler_run.
  destruct (dump_print_error result); repeat constructor; by eexists.
Qed.

(** What the client prints after its request are its own lines. *)
Lemma extract_image_log result fs :
  client_log (events_of (extract_image result fs)).
Proof.
  assert (∀ m, client_line m →
    client_log (events_of ((print m ;; print_dump result ;; ret (@None bytes)) fs)))
    as Hdump.
  { intros m Hm. rewrite bind_print, bind_print_dump.
    destruct (dump_print_error result);
      rewrite ?result_of_run, ?fs_of_run, ?events_of_run; repeat constructor; by eexists. }
  unfold extract_image.
  rewrite bind_lift. destruct (py_get result "candidates" (JArr [])) as [candidates|e];
    [|constructor].
  destruct (truthy candidates); cbn [negb]; [|by apply Hdump].
  rewrite bind_lift. destruct (first_candidate_parts candidates) as [parts|e];
    [|constructor].
  rewrite bind_lift.
  destruct (let? items := py_iter parts in find_inline_data items) as [image_data|e];
    [|constructor].
  destruct (truthy image_data); cbn [negb]; [|by apply Hdump].
  rewrite bind_lift. destruct (b64decode_value image_data) as [decoded|e]; constructor.
Qed.

Lemma generate_run_log prompt title model_id fs :
  ∃ evs,
    generate_image_with_gemini prompt title model_id fs =
      (obind (requests_post (gemini_request prompt model_id)) client_answer, fs,
       EvPrint (MsgGenerating title model_id)
         :: EvPost (gemini_request prompt model_id) :: evs)
    ∧ client_log evs.
Proof.
  destruct (generate_run prompt title model_id fs) as (evs & Hrun & _).
  exists evs. split; [done|].
  assert (events_of (generate_image_with_gemini prompt title model_id fs)
          = EvPrint (MsgGenerating title model_id)
              :: EvPost (gemini_request prompt model_id) :: evs) as Hev
    by (by rewrite Hrun).
  clear Hrun. revert Hev.
  unfold generate_image_with_gemini. rewrite bind_print, events_of_run, bind_http_post.
  destruct (requests_post (gemini_request prompt model_id)) as [response|e].
  2: { rewrite events_of_run. intros [= <-]. constructor. }
  rewrite events_of_run.
  destruct (negb (status_code response =? 200)).
  { rewrite bind_print. unfold ret. simpl. intros [= <-]. repeat constructor. by eexists. }
  rewrite bind_lift. destruct (body_json response) as [result|].
  2: { intros [= <-]. constructor. }
  unfold try_except.
  pose proof (extract_image_log result fs) as Hlog.
  destruct (extract_image result fs) as [[[image|e] fs'] evs'].
  { simpl. intros [= <-]. exact Hlog. }
  unfold events_of in Hlog. simpl in Hlog.
  pose proof (handler_log result e fs') as Hhandler.
  destruct ((print (MsgParseError e) ;; print_dump result ;; ret (@None bytes)) fs')
    as [[o fs''] evs''].
  rewrite events_of_run in Hhandler.
  destruct e; simpl; intros [= <-]; try exact Hlog; by apply Forall_app_2.
Qed.

End ClientLog.

(** ** The generation client *)

Section ClientMore.
Context `{Platform}.


(** X2: whatever the outcome, a call of the client posts exactly one
    request (no retry): to the [generateContent] URL of the model, with the
    key in the header [x-goog-api-key], the prompt as the only text part and
    a time-out of 180.  It writes no file and leaves the file system as it
    is. *)
Theorem client_posts_one_request_and_writes_nothing prompt title model_id fs :
  fs_of (generate_image_with_gemini prompt title model_id fs) = fs ∧
  writes (events_of (generate_image_with_gemini prompt title model_id fs)) = [] ∧
  ∃ request,
    posts (events_of (generate_image_with_gemini prompt title model_id fs)) = [request] ∧
    req_url request =
      "https://generativelanguage.googleapis.com/v1beta/models/" +:+ model_id
        +:+ ":generateContent" ∧
    req_timeout request = 180 ∧
    dict_get (req_headers request) "x-goog-api-key" = Some GEMINI_API_KEY ∧
    py_get (req_json request) "contents" JNull
      = Ret (JArr [JObj [("parts", JArr [JObj [("text", JStr prompt)]])]]).
Proof.
  destruct (generate_run prompt title model_id fs) as (evs & -> & Hq).
  destruct (quiet_silent _ Hq) as (Hp & Hw & _).
  rewrite fs_of_run, events_of_run, writes_print, posts_print.
  change (EvPost (gemini_request prompt model_id) :: evs)
    with ([EvPost (gemini_request prompt model_id)] ++ evs).
  rewrite writes_app, posts_app, Hp, Hw.
  split; [done|]. split; [done|]. by exists (gemini_request prompt model_id).
Qed.

(** X3: image data that [base64.b64decode] does not accept (a string that
    is not base64, with [binascii.Error]; a string with a character outside
    ASCII, with [ValueError]; a number, list or object, with [TypeError])
    does not escape as that exception: the handler reports the failure to
    parse and prints the dump of the response.  When standard output takes
    the dump, the client returns an absent result; when printing the dump
    raises, the client leaves with the exception of the print. *)
Theorem unusable_payload_is_caught
    prompt title model_id fs response result pre pfields post inline image_data e :
  requests_post (gemini_request prompt model_id) = Ret response →
  status_code response = 200 →
  body_json response = Some result →
  response_parts result (pre ++ JObj pfields :: post) →
  Forall lacks_inline pre →
  dict_get pfields "inlineData" = Some (JObj inline) →
  dict_get inline "data" = Some image_data →
  truthy image_data = true →
  b64decode_value image_data = Raise e →
  (dump_print_error result = None →
     result_of (generate_image_with_gemini prompt title model_id fs) = Ret None ∧
     printed (events_of (generate_image_with_gemini prompt title model_id fs))
       = [MsgGenerating title model_id; MsgParseError e; MsgResponseDump result]) ∧
  (∀ e', dump_print_error result = Some e' →
     result_of (generate_image_with_gemini prompt title model_id fs) = Raise e' ∧
     printed (events_of (generate_image_with_gemini prompt title model_id fs))
       = [MsgGenerating title model_id; MsgParseError e]).
Proof.
  intros Hpost Hstatus Hbody Hparts Hpre Hin Hdata Htruthy Hdec.
  assert (parsed_image result = Raise e) as Hraise.
  { rewrite (parsed_image_parts _ _ Hparts).
    rewrite (find_inline_data_first _ _ _ _ Hpre Hin). simpl.
    by rewrite Hdata, Htruthy, Hdec. }
  rewrite (generate_caught _ _ _ _ _ _ _ Hpost Hstatus Hbody Hraise).
  split.
  - by intros ->.
  - by intros e' ->.
Qed.

(** X4: a JSON object without [candidates], or with a value there that is
    false in a condition (null, an empty list), makes the client report
    that no image was generated and print the dump of the response.  When
    standard output takes the dump, the client returns an absent result;
    when printing the dump raises, the client leaves with that exception. *)
Theorem missing_candidates_is_reported prompt title model_id fs response fields :
  requests_post (gemini_request prompt model_id) = Ret response →
  status_code response = 200 →
  body_json response = Some (JObj fields) →
  truthy (default (JArr []) (dict_get fields "candidates")) = false →
  (dump_print_error (JObj fields) = None →
     result_of (generate_image_with_gemini prompt title model_id fs) = Ret None ∧
     printed (events_of (generate_image_with_gemini prompt title model_id fs))
       = [MsgGenerating title model_id; MsgNoCandidates; MsgResponseDump (JObj fields)]) ∧
  (∀ e, dump_print_error (JObj fields) = Some e →
     result_of (generate_image_with_gemini prompt title model_id fs) = Raise e).
Proof.
  intros Hpost Hstatus Hbody Hfalse.
  rewrite (generate_200 _ _ _ _ _ _ Hpost Hstatus Hbody). cbn zeta.
  assert (extract_image (JObj fields) fs
          = match dump_print_error (JObj fields) with
            | None => (Ret None, fs, [EvPrint MsgNoCandidates;
                                      EvPrint (MsgResponseDump (JObj fields))])
            | Some e => (Raise e, fs, [EvPrint MsgNoCandidates])
            end) as Hrun.
  { unfold extract_image. rewrite bind_lift. cbn [py_get].
    change (match dict_get fields "candidates" with Some x => x | None => JArr [] end)
      with (default (JArr []) (dict_get fields "candidates")).
    rewrite Hfalse. cbn [negb]. rewrite bind_print, bind_print_dump.
    by destruct (dump_print_error (JObj fields)). }
  unfold try_except. rewrite Hrun. split.
  - by intros ->.
  - intros e Hdump. rewrite Hdump.
    destruct e; try done; by rewrite handler_run, Hdump.
Qed.

(** X5: a JSON body that is not an object (a list, a string, a number,
    null) has no method [get]: the [AttributeError] is caught and reported,
    and the dump of the response is printed.  When standard output takes
    the dump, the client returns an absent result; when printing the dump
    raises, the client leaves with that exception. *)
Theorem non_object_body_is_caught prompt title model_id fs response result :
  requests_post (gemini_request prompt model_id) = Ret response →
  status_code response = 200 →
  body_json response = Some result →
  (∀ fields, result ≠ JObj fields) →
  (dump_print_error result = None →
     result_of (generate_image_with_gemini prompt title model_id fs) = Ret None ∧
     printed (events_of (generate_image_with_gemini prompt title model_id fs))
       = [MsgGenerating title model_id; MsgParseError AttributeError;
          MsgResponseDump result]) ∧
  (∀ e, dump_print_error result = Some e →
     result_of (generate_image_with_gemini prompt title model_id fs) = Raise e ∧
     printed (events_of (generate_image_with_gemini prompt title model_id fs))
       = [MsgGenerating title model_id; MsgParseError AttributeError]).
Proof.
  intros Hpost Hstatus Hbody Hshape.
  assert (parsed_image result = Raise AttributeError) as Hraise.
  { unfold parsed_image. destruct result; try done. by destruct (Hshape fields). }
  rewrite (generate_caught _ _ _ _ _ _ _ Hpost Hstatus Hbody Hraise).
  split.
  - by intros ->.
  - by intros e ->.
Qed.

(** X6: the client returns bytes only for a response with status 200 whose
    first part with the key [inlineData] holds a non-empty string that
    decodes to exactly these bytes. *)
Theorem client_bytes_come_from_first_inline_part prompt title model_id fs decoded :
  result_of (generate_image_with_gemini prompt title model_id fs) = Ret (Some decoded) →
  ∃ response result pre pfields post inline payload,
    requests_post (gemini_request prompt model_id) = Ret response ∧
    status_code response = 200 ∧
    body_json response = Some result ∧
    response_parts result (pre ++ JObj pfields :: post) ∧
    Forall lacks_inline pre ∧
    dict_get pfields "inlineData" = Some (JObj inline) ∧
    dict_get inline "data" = Some (JStr payload) ∧
    payload ≠ "" ∧
    b64decode payload = Some decoded.
Proof.
  destruct (generate_run prompt title model_id fs) as (evs & -> & _).
  rewrite result_of_run.
  intros (response & Hpost & Hanswer)%obind_Ret.
  unfold client_answer in Hanswer.
  destruct (Z.eqb_spec (status_code response) 200) as [Hstatus|_]; [|done].
  cbn [negb] in Hanswer.
  destruct (body_json response) as [result|] eqn:Hbody; [|done].
  destruct (parsed_image result) as [[image|]|e] eqn:Hparsed;
    [|unfold dump_outcome in Hanswer; by destruct (dump_print_error result)..].
  injection Hanswer as ->.
  apply parsed_image_Some in Hparsed
    as (pre & pfields & post & inline & payload & Hparts & Hpre & Hin & Hdata & Hne & Hdec).
  by exists response, result, pre, pfields, post, inline, payload.
Qed.

End ClientMore.

Lemma unusable_payload_is_caught_witness :
  result_of (@generate_image_with_gemini
               (scripted (λ _, Ret (ok_response (answer [inline_part "Q"]))) None)
               (prompt icon_spec) (title icon_spec) pro_model empty_fs)
    = Ret None.
Proof.
  refine (proj1 (proj1 (@unusable_payload_is_caught
                   (scripted (λ _, Ret (ok_response (answer [inline_part "Q"]))) None)
                   (prompt icon_spec) (title icon_spec) pro_model empty_fs
                   (ok_response (answer [inline_part "Q"])) (answer [inline_part "Q"])
                   []
                   [("inlineData", JObj [("mimeType", JStr "image/png"); ("data", JStr "Q")])]
                   []
                   [("mimeType", JStr "image/png"); ("data", JStr "Q")]
                   (JStr "Q") BinasciiError _ _ _ _ _ _ _ _ _) _)).
  - reflexivity.
  - reflexivity.
  - reflexivity.
  - apply answer_parts.
  - constructor.
  - reflexivity.
  - reflexivity.
  - reflexivity.
  - vm_compute. reflexivity.
  - reflexivity.
Defined.

Lemma missing_candidates_is_reported_witness :
  result_of (@generate_image_with_gemini
               (scripted (λ _, Ret (ok_response (JObj [("promptFeedback", JObj [])]))) None)
               (prompt icon_spec) (title icon_spec) pro_model empty_fs)
    = Ret None.
Proof.
  refine (proj1 (proj1 (@missing_candidates_is_reported
                   (scripted (λ _, Ret (ok_response (JObj [("promptFeedback", JObj [])]))) None)
                   (prompt icon_spec) (title icon_spec) pro_model empty_fs
                   (ok_response (JObj [("promptFeedback", JObj [])]))
                   [("promptFeedback", JObj [])] _ _ _ _) _)).
  - reflexivity.
  - reflexivity.
  - reflexivity.
  - reflexivity.
  - reflexivity.
Defined.

Lemma non_object_body_is_caught_witness :
  result_of (@generate_image_with_gemini
               (scripted (λ _, Ret (ok_response (JArr []))) None)
               (prompt icon_spec) (title icon_spec) pro_model empty_fs)
    = Ret None.
Proof.
  refine (proj1 (proj1 (@non_object_body_is_caught
                   (scripted (λ _, Ret (ok_response (JArr []))) None)
                   (prompt icon_spec) (title icon_spec) pro_model empty_fs
                   (ok_response (JArr [])) (JArr []) _ _ _ _) _)).
  - reflexivity.
  - reflexivity.
  - reflexivity.
  - discriminate.
  - reflexivity.
Defined.

Lemma client_bytes_come_from_first_inline_part_witness :
  ∃ response result pre pfields post inline payload,
    image_provider (@gemini_request (scripted image_provider None)
                      (prompt icon_spec) pro_model) = Ret response ∧
    status_code response = 200 ∧
    body_json response = Some result ∧
    response_parts result (pre ++ JObj pfields :: post) ∧
    Forall lacks_inline pre ∧
    dict_get pfields "inlineData" = Some (JObj inline) ∧
    dict_get inline "data" = Some (JStr payload) ∧
    payload ≠ "" ∧
    Base64.decode payload = Some abc.
Proof.
  apply (@client_bytes_come_from_first_inline_part (scripted image_provider None)
           (prompt icon_spec) (title icon_spec) pro_model empty_fs abc).
  vm_compute. reflexivity.
Defined.

(** ** Files and the log of writes *)

Lemma apply_writes_app (a b : list (string * bytes)) (f : gmap string bytes) :
  apply_writes (a ++ b) f = apply_writes b (apply_writes a f).
Proof. apply foldl_app. Qed.

(** A path that is not written keeps its content. *)
Lemma apply_writes_frame (ws : list (string * bytes)) (f : gmap string bytes) (p : string) :
  p ∉ ws.*1 → apply_writes ws f !! p = f !! p.
Proof.
  revert f. induction ws as [|[q d] ws IH]; intros f Hp; [done|].
  rewrite fmap_cons in Hp. apply not_elem_of_cons in Hp as [Hne Hp].
  change (apply_writes ws (<[q := d]> f) !! p = f !! p).
  rewrite IH by done. by apply lookup_insert_ne.
Qed.

(** When no path is written twice, every write is there at the end. *)
Lemma apply_writes_lookup (ws : list (string * bytes)) (f : gmap string bytes) p d :
  NoDup ws.*1 → (p, d) ∈ ws → apply_writes ws f !! p = Some d.
Proof.
  revert f. induction ws as [|[q d'] ws IH]; intros f Hnd Hin.
  { by apply elem_of_nil in Hin. }
  rewrite fmap_cons in Hnd. apply NoDup_cons in Hnd as [Hfresh Hnd].
  change (apply_writes ws (<[q := d']> f) !! p = Some d).
  apply elem_of_cons in Hin as [[= -> ->]|Hin].
  - rewrite apply_writes_frame by done. apply lookup_insert_eq.
  - by apply IH.
Qed.

Lemma logged_ret {A} (a : A) : logged (ret a).
Proof. by intros fs. Qed.

Lemma logged_raise {A} (e : pyexc) : logged (@raise A e).
Proof. by intros fs. Qed.

Lemma logged_lift {A} (o : outcome A) : logged (lift o).
Proof. by intros fs. Qed.

Lemma logged_emit (e : event) : (∀ p d, e ≠ EvWrite p d) → logged (emit e).
Proof. intros He fs. unfold emit. rewrite fs_of_run, events_of_run.
  destruct e as [m|r|path data|p]; try done. by destruct (He path data).
Qed.

Lemma logged_print (m : message) : logged (print m).
Proof. by apply logged_emit. Qed.

Lemma logged_mkdir (d : string) : logged (mkdir d).
Proof. by intros fs. Qed.

Lemma logged_write_file path data : logged (write_file path data).
Proof. by intros fs. Qed.

Lemma logged_path_exists path : logged (path_exists path).
Proof. by intros fs. Qed.

Lemma logged_read_file path : logged (read_file path).
Proof. intros fs. unfold read_file. by destruct (files fs !! path). Qed.

Lemma logged_bind {A B} (m : M A) (k : A → M B) :
  logged m → (∀ a, logged (k a)) → logged (bind m k).
Proof.
  intros Hm Hk fs. rewrite bind_run.
  destruct (result_of (m fs)) as [a|e].
  - by rewrite fs_of_run, events_of_run, writes_app, apply_writes_app, <- Hm, <- Hk.
  - by rewrite fs_of_run, events_of_run.
Qed.

#[local] Hint Resolve logged_ret logged_raise logged_lift logged_print logged_mkdir
  logged_write_file logged_path_exists logged_read_file : core.

Section Logged.
Context `{Platform}.

Lemma logged_generate prompt title model_id :
  logged (generate_image_with_gemini prompt title model_id).
Proof.
  intros fs. destruct (generate_run prompt title model_id fs) as (evs & -> & Hq).
  destruct (quiet_silent _ Hq) as (_ & Hw & _).
  rewrite fs_of_run, events_of_run, writes_print.
  change (EvPost (gemini_request prompt model_id) :: evs)
    with ([EvPost (gemini_request prompt model_id)] ++ evs).
  by rewrite writes_app, Hw.
Qed.

Lemma logged_save_image image_data fname : logged (save_image image_data fname).
Proof. intros fs. by rewrite save_image_run. Qed.

Lemma logged_main_loop model_id targets results icon_path :
  logged (main_loop model_id targets results icon_path).
Proof.
  revert results icon_path.
  induction targets as [|[image_id config] rest IH]; intros results icon_path; [done|].
  cbn [main_loop]. apply logged_bind; [done|]. intros _.
  apply logged_bind; [apply logged_generate|]. intros [[|b bs]|].
  - apply logged_bind; [done|]. intros _. apply IH.
  - apply logged_bind; [done|]. intros _.
    apply logged_bind; [apply logged_save_image|]. intros filepath. apply IH.
  - apply logged_bind; [done|]. intros _. apply IH.
Qed.

Lemma logged_resize_each pil img sizes : logged (resize_each pil img sizes).
Proof.
  induction sizes as [|size rest IH]; [done|].
  cbn [resize_each]. apply logged_bind; [done|]. intros resized.
  apply logged_bind; [done|]. intros _. by apply logged_bind.
Qed.

Lemma logged_create_icon_sizes base_icon_path : logged (create_icon_sizes base_icon_path).
Proof.
  unfold create_icon_sizes. apply logged_bind; [by apply logged_emit|]. intros _.
  destruct PIL as [pil|]; [|done].
  apply logged_bind; [done|]. intros content.
  apply logged_bind; [done|]. intros img. apply logged_resize_each.
Qed.

Lemma logged_derive_icons icon_path : logged (derive_icons icon_path).
Proof.
  destruct icon_path as [path|]; [|done].
  apply logged_bind; [done|]. intros [|]; [|done].
  apply logged_bind; [done|]. intros _. apply logged_create_icon_sizes.
Qed.

Lemma logged_print_summary results success_count :
  logged (print_summary results success_count).
Proof.
  intros fs. rewrite print_summary_run, fs_of_run, events_of_run.
  induction results as [|[image_id [fname path|]] rest IH]; done.
Qed.

Lemma logged_finish results icon_path : logged (finish results icon_path).
Proof.
  change (finish results icon_path)
    with (derive_icons icon_path ;;
          let* success_count := print_summary results 0%nat in
          print (MsgTally success_count (length IMAGE_PROMPTS)) ;;
          print (MsgOutputDir OUTPUT_DIR) ;;
          print MsgNextSteps).
  apply logged_bind; [apply logged_derive_icons|]. intros _.
  apply logged_bind; [apply logged_print_summary|]. intros success_count.
  apply logged_bind; [done|]. intros _. by apply logged_bind.
Qed.

Lemma logged_print_models models : logged (print_models models).
Proof.
  induction models as [|[short_name model_id] rest IH]; [done|].
  cbn [print_models]. by apply logged_bind.
Qed.

Lemma logged_main args : logged (main args).
Proof.
  unfold main. destruct (list_models args).
  - apply logged_bind; [apply logged_print_models|done].
  - apply logged_bind; [done|]. intros model_id.
    apply logged_bind; [done|]. intros _.
    apply logged_bind; [done|]. intros targets.
    apply logged_bind; [apply logged_main_loop|]. intros [results icon_path].
    apply logged_finish.
Qed.

End Logged.

(** ** The loop, entry by entry *)

Lemma dict_set_fresh {V} (d : list (string * V)) k v :
  k ∉ d.*1 → dict_set d k v = d ++ [(k, v)].
Proof.
  induction d as [|[k' v'] d IH]; [done|].
  rewrite fmap_cons. cbn [fst]. intros [Hne Hd]%not_elem_of_cons.
  cbn [dict_set]. destruct (String.eqb_spec k' k) as [->|_]; [done|].
  by rewrite IH.
Qed.

Section LoopLog.
Context `{Platform}.

(** [main_loop_cons] with the lines of the client made explicit. *)
Lemma main_loop_cons_log model_id image_id config rest results icon_path fs :
  ∃ evs, client_log evs ∧
    main_loop model_id ((image_id, config) :: rest) results icon_path fs =
    match entry_answer model_id config with
    | Raise e => (Raise e, fs, turn_head model_id image_id config ++ evs)
    | Ret _ =>
        let r := main_loop model_id rest
                   (dict_set results image_id (entry_result model_id config))
                   (turn_icon model_id image_id config icon_path)
                   (turn_fs model_id config fs) in
        (result_of r, fs_of r,
         turn_head model_id image_id config ++ evs ++
         turn_tail model_id image_id config ++ events_of r)
    end.
Proof.
  destruct (generate_run_log (prompt config) (title config) model_id fs) as (evs & Hg & Hlog).
  exists evs. split; [done|].
  cbn [main_loop]. rewrite bind_print, bind_run, Hg.
  unfold turn_tail, turn_fs, turn_icon, entry_result, entry_path.
  unfold result_of, fs_of, events_of, entry_answer, turn_head. cbn [fst snd].
  destruct (obind _ client_answer) as [[[|b bs]|]|e]; cbn [fst snd]; try done.
  - rewrite bind_print. unfold result_of, fs_of, events_of. cbn [fst snd].
    simpl. by rewrite <- ?app_assoc.
  - rewrite bind_print, bind_run, save_image_run.
    unfold result_of, fs_of, events_of. cbn [fst snd].
    simpl. by rewrite <- ?app_assoc.
  - rewrite bind_print. unfold result_of, fs_of, events_of. cbn [fst snd].
    simpl. by rewrite <- ?app_assoc.
Qed.

Lemma turn_head_no_summary model_id image_id config :
  summary (turn_head model_id image_id config) = [] ∧
  tallies (turn_head model_id image_id config) = [] ∧
  writes (turn_head model_id image_id config) = [].
Proof. done. Qed.

Lemma turn_tail_no_summary model_id image_id config :
  summary (turn_tail model_id image_id config) = [] ∧
  tallies (turn_tail model_id image_id config) = [].
Proof. unfold turn_tail. by destruct (entry_answer model_id config) as [[[|b bs]|]|e]. Qed.

Lemma turn_tail_entry_write model_id image_id config :
  writes (turn_tail model_id image_id config)
    = option_list (entry_write model_id (image_id, config)).
Proof.
  unfold turn_tail, entry_write. cbn [snd].
  by destruct (entry_answer model_id config) as [[[|b bs]|]|e].
Qed.

(** The loop prints no line of the summary.  Its writes are those of the
    entries that it has started, in order. *)
Lemma main_loop_log model_id targets results icon_path fs :
  let r := main_loop model_id targets results icon_path fs in
  summary (events_of r) = [] ∧ tallies (events_of r) = [] ∧
  ∃ n, started (events_of r) = (take n targets).*1 ∧
       writes (events_of r) = omap (entry_write model_id) (take n targets) ∧
       (∀ x, result_of r = Ret x → n = length targets) ∧
       (∀ e, result_of r = Raise e →
             ∃ entry, targets !! pred n = Some entry ∧ (0 < n)%nat ∧
                      entry_answer model_id entry.2 = Raise e).
Proof.
  revert results icon_path fs.
  induction targets as [|[image_id config] rest IH]; intros results icon_path fs r.
  { split; [done|]. split; [done|]. exists 0%nat. by repeat split. }
  subst r.
  destruct (main_loop_cons_log model_id image_id config rest results icon_path fs)
    as (evs & Hlog & ->).
  destruct (client_log_silent _ Hlog) as (Hcs & Hct).
  destruct (quiet_silent _ (client_log_quiet _ Hlog)) as (_ & Hw & _ & Hs).
  destruct (turn_head_no_summary model_id image_id config) as (Hhs & Hht & Hhw).
  destruct (turn_tail_no_summary model_id image_id config) as (Hts & Htt).
  destruct (turn_tail_silent model_id image_id config) as (_ & _ & Htst).
  pose proof (turn_tail_entry_write model_id image_id config) as Htw.
  destruct (entry_answer model_id config) as [answer|e] eqn:Hans.
  - cbn zeta. rewrite events_of_run, result_of_run.
    destruct (IH (dict_set results image_id (entry_result model_id config))
                 (turn_icon model_id image_id config icon_path)
                 (turn_fs model_id config fs)) as (Hsum & Htal & n & Hst & Hwr & Hn & Hraise).
    rewrite !summary_app, !tallies_app, Hhs, Hht, Hcs, Hct, Hts, Htt, Hsum, Htal.
    split; [done|]. split; [done|]. exists (S n).
    rewrite !started_app, !writes_app, Hhw, Hw, Hs, Htst, Htw, Hst, Hwr.
    rewrite turn_head_started. split; [done|]. split.
    { cbn [take]. rewrite (omap_app _ [(image_id, config)] (take n rest)).
      apply (f_equal (λ l, l ++ omap (entry_write model_id) (take n rest))).
      cbn. by destruct (entry_write model_id (image_id, config)). }
    split.
    + intros x Hx. simpl. f_equal. eauto.
    + intros e He. destruct (Hraise e He) as (entry & Hlook & Hpos & Hentry).
      exists entry. split; [|split; [lia|done]].
      destruct n as [|n]; [lia|]. exact Hlook.
  - rewrite events_of_run, result_of_run.
    rewrite !summary_app, !tallies_app, Hhs, Hht, Hcs, Hct.
    split; [done|]. split; [done|]. exists 1%nat.
    rewrite !started_app, !writes_app, Hhw, Hw, Hs, turn_head_started.
    split; [done|]. split.
    { unfold entry_write. cbn. by rewrite Hans. }
    split; [done|]. intros e' [= <-]. exists (image_id, config). repeat split; [lia|done].
Qed.

(** From a dict without the identifiers of the targets, the loop that
    returns has appended one record per target, in order. *)
Lemma main_loop_records model_id targets results icon_path fs results' icon_path' :
  NoDup (results.*1 ++ targets.*1) →
  result_of (main_loop model_id targets results icon_path fs) = Ret (results', icon_path') →
  results' = results ++ ((λ entry, (entry.1, entry_result model_id entry.2)) <$> targets).
Proof.
  revert results icon_path fs.
  induction targets as [|[image_id config] rest IH]; intros results icon_path fs Hnd Hret.
  { injection Hret as <- <-. by rewrite app_nil_r. }
  destruct (main_loop_cons model_id image_id config rest results icon_path fs)
    as (evs & Hq & Hturn).
  rewrite Hturn in Hret. clear Hturn.
  destruct (entry_answer model_id config) as [answer|e] eqn:Hans; [|done].
  cbn zeta in Hret. rewrite result_of_run in Hret.
  assert (image_id ∉ results.*1) as Hfresh.
  { apply NoDup_app in Hnd as (_ & Hdisj & _). intros Hin.
    apply (Hdisj _ Hin). rewrite fmap_cons. apply list_elem_of_here. }
  rewrite (dict_set_fresh _ _ _ Hfresh) in Hret.
  apply IH in Hret.
  - rewrite Hret, <- app_assoc. reflexivity.
  - rewrite fmap_app, <- app_assoc. exact Hnd.
Qed.

End LoopLog.

(** ** Icon derivation and the end of [main], event by event *)

Lemma summary_of_lines (results : list (string * GenResult)) :
  summary (summary_line <$> results) =
    (λ entry, (entry.1, match entry.2 with
                        | Success fname _ => Some fname
                        | Failure => None
                        end)) <$> results.
Proof.
  induction results as [|[image_id [fname path|]] rest IH]; [done|..];
    (change (summary (summary_line <$> (?x :: rest)))
       with (summary ([summary_line x] ++ (summary_line <$> rest)));
     by rewrite summary_app, IH).
Qed.

Lemma tallies_of_lines (results : list (string * GenResult)) :
  tallies (summary_line <$> results) = [].
Proof. induction results as [|[image_id [fname path|]] rest IH]; done. Qed.

Lemma omap_entry_write_paths `{Platform} model_id (targets : list (string * AssetSpec)) :
  (omap (entry_write model_id) targets).*1 `sublist_of` (entry_path <$> targets.*2).
Proof.
  induction targets as [|[image_id config] rest IH]; [constructor|].
  rewrite !fmap_cons. cbn [snd].
  change (omap (entry_write model_id) ((image_id, config) :: rest))
    with (omap (entry_write model_id) ([(image_id, config)] ++ rest)).
  rewrite omap_app. unfold entry_write at 1. cbn.
  destruct (entry_answer model_id config) as [[[|b bs]|]|e]; cbn;
    by (apply sublist_skip || apply sublist_cons).
Qed.

Section FinishLog.
Context `{Platform}.

(** Deriving the sizes writes the icon files in the order of the sizes,
    stops at the first size that fails, and prints no line of the summary. *)
Lemma resize_each_log pil img sizes fs :
  summary (events_of (resize_each pil img sizes fs)) = [] ∧
  tallies (events_of (resize_each pil img sizes fs)) = [] ∧
  (writes (events_of (resize_each pil img sizes fs))).*1 `sublist_of`
    ((λ size : Z, path_join OUTPUT_DIR ("icon" +:+ pretty size +:+ ".png")) <$> sizes).
Proof.
  revert fs. induction sizes as [|size rest IH]; intros fs.
  { repeat split; constructor. }
  cbn [resize_each]. rewrite bind_lift.
  destruct (resize_save pil img size) as [resized|e].
  2: { repeat split; apply sublist_nil_l. }
  rewrite bind_write_file, events_of_run, bind_print, events_of_run.
  destruct (IH {| dirs := dirs fs;
                  files := <[path_join OUTPUT_DIR ("icon" +:+ pretty size +:+ ".png")
                             := resized]> (files fs) |}) as (Hs & Ht & Hw).
  split; [exact Hs|]. split; [exact Ht|].
  rewrite fmap_cons. by apply sublist_skip.
Qed.

Lemma create_icon_sizes_log base_icon_path fs :
  summary (events_of (create_icon_sizes base_icon_path fs)) = [] ∧
  tallies (events_of (create_icon_sizes base_icon_path fs)) = [] ∧
  (writes (events_of (create_icon_sizes base_icon_path fs))).*1 `sublist_of` icon_size_paths.
Proof.
  unfold create_icon_sizes. rewrite bind_emit, events_of_run.
  destruct PIL as [pil|].
  - rewrite bind_read_file.
    destruct (files fs !! base_icon_path) as [content|].
    2: { repeat split; apply sublist_nil_l. }
    rewrite bind_lift. destruct (Image_open pil content) as [img|e].
    2: { repeat split; apply sublist_nil_l. }
    apply (resize_each_log pil img [16; 32; 48] fs).
  - repeat split; apply sublist_nil_l.
Qed.

Lemma derive_icons_log icon_path fs :
  summary (events_of (derive_icons icon_path fs)) = [] ∧
  tallies (events_of (derive_icons icon_path fs)) = [] ∧
  (writes (events_of (derive_icons icon_path fs))).*1 `sublist_of` icon_size_paths.
Proof.
  destruct icon_path as [path|]; [|repeat split; apply sublist_nil_l].
  unfold derive_icons. rewrite bind_path_exists.
  destruct (bool_decide (is_Some (files fs !! path))); [|repeat split; apply sublist_nil_l].
  rewrite bind_print, events_of_run. apply create_icon_sizes_log.
Qed.

(** The end of [main]: the icon step and, when it returns, the summary. *)
Lemma finish_run results icon_path fs :
  finish results icon_path fs =
    match result_of (derive_icons icon_path fs) with
    | Ret _ =>
        (Ret tt, fs_of (derive_icons icon_path fs),
         events_of (derive_icons icon_path fs) ++ (summary_line <$> results) ++
         [EvPrint (MsgTally (success_total results) (length IMAGE_PROMPTS));
          EvPrint (MsgOutputDir OUTPUT_DIR); EvPrint MsgNextSteps])
    | Raise e => (Raise e, fs_of (derive_icons icon_path fs),
                  events_of (derive_icons icon_path fs))
    end.
Proof.
  change (finish results icon_path)
    with (derive_icons icon_path ;;
          let* success_count := print_summary results 0%nat in
          print (MsgTally success_count (length IMAGE_PROMPTS)) ;;
          print (MsgOutputDir OUTPUT_DIR) ;;
          print MsgNextSteps).
  rewrite bind_run. destruct (result_of (derive_icons icon_path fs)) as [[]|e]; [|done].
  rewrite bind_run, print_summary_run, !result_of_run, !fs_of_run, !events_of_run.
  by rewrite !bind_print, !result_of_run, !fs_of_run, !events_of_run.
Qed.

End FinishLog.

(** ** Targets *)

Lemma resolve_targets_catalog target targets :
  resolve_targets target = Ret targets →
  targets `sublist_of` IMAGE_PROMPTS ∧ NoDup targets.*1.
Proof.
  unfold resolve_targets. destruct (String.eqb target "all").
  - intros [= <-]. split; [done|apply catalog_ids_distinct].
  - destruct (dict_get IMAGE_PROMPTS target) as [config|] eqn:Hget; [|done].
    intros [= <-]. split; [|apply NoDup_singleton].
    apply singleton_sublist_l. by apply dict_get_Some_elem.
Qed.

Lemma output_paths_distinct : NoDup output_paths.
Proof. apply (bool_decide_unpack _). by vm_compute. Qed.

Lemma writes_of_lines (results : list (string * GenResult)) :
  writes (summary_line <$> results) = [].
Proof. induction results as [|[image_id [fname path|]] rest IH]; done. Qed.

Lemma success_total_records `{Platform} model_id (targets : list (string * AssetSpec)) :
  success_total ((λ entry, (entry.1, entry_result model_id entry.2)) <$> targets)
    = length (omap (entry_write model_id) targets).
Proof.
  unfold success_total.
  induction targets as [|[image_id config] rest IH]; [done|].
  change (omap (entry_write model_id) ((image_id, config) :: rest))
    with (omap (entry_write model_id) ([(image_id, config)] ++ rest)).
  rewrite omap_app, length_app, <- IH, fmap_cons. clear IH.
  cbn [List.filter fst snd].
  generalize (List.filter (λ entry : string * GenResult, succeeded entry.2)
                ((λ entry, (entry.1, entry_result model_id entry.2)) <$> rest)).
  intros tail.
  unfold entry_write, entry_result. cbn [omap list_omap snd].
  by destruct (entry_answer model_id config) as [[[|b bs]|]|e].
Qed.

Section MainLog.
Context `{Platform}.

Lemma finish_log results icon_path fs :
  (writes (events_of (finish results icon_path fs))).*1 `sublist_of` icon_size_paths ∧
  match result_of (finish results icon_path fs) with
  | Ret _ =>
      result_of (derive_icons icon_path fs) = Ret tt ∧
      summary (events_of (finish results icon_path fs))
        = (λ entry, (entry.1, match entry.2 with
                              | Success fname _ => Some fname
                              | Failure => None
                              end)) <$> results ∧
      tallies (events_of (finish results icon_path fs))
        = [(success_total results, length IMAGE_PROMPTS)]
  | Raise e =>
      result_of (derive_icons icon_path fs) = Raise e ∧
      summary (events_of (finish results icon_path fs)) = [] ∧
      tallies (events_of (finish results icon_path fs)) = []
  end.
Proof.
  rewrite finish_run.
  destruct (derive_icons_log icon_path fs) as (Hs & Ht & Hw).
  destruct (result_of (derive_icons icon_path fs)) as [[]|e];
    rewrite result_of_run, events_of_run; [|done].
  rewrite !writes_app, !summary_app, !tallies_app, Hs, Ht, writes_of_lines,
    summary_of_lines, tallies_of_lines.
  split; [|split; [done|]; split; [|done]].
  - change (writes [EvPrint _; EvPrint _; EvPrint _]) with (@nil (string * bytes)).
    by rewrite !app_nil_r.
  - change (summary [EvPrint _; EvPrint _; EvPrint _]) with (@nil (string * option string)).
    by rewrite app_nil_r.
Qed.

(** The paths written in a run of [main], in order, are taken from the
    files of the catalog followed by the derived icon files. *)
Lemma main_writes_sublist args fs :
  (writes (events_of (main args fs))).*1 `sublist_of` output_paths.
Proof.
  destruct (list_models args) eqn:Hlist.
  { unfold main. rewrite Hlist.
    change (writes (events_of ((print_models AVAILABLE_MODELS ;; raise (SystemExit 0)) fs)))
      with (@nil (string * bytes)).
    apply sublist_nil_l. }
  destruct (dict_get AVAILABLE_MODELS (model args)) as [model_id|] eqn:Hmodel.
  2: { unfold main. rewrite Hlist, Hmodel, bind_lift. apply sublist_nil_l. }
  destruct (resolve_targets (target args)) as [targets|e] eqn:Htargets.
  2: { unfold main. rewrite Hlist, Hmodel, bind_lift, bind_print, Htargets, bind_lift.
       apply sublist_nil_l. }
  rewrite (main_run args fs model_id targets Hlist Hmodel Htargets).
  destruct (resolve_targets_catalog _ _ Htargets) as (Hsub & _).
  destruct (main_loop_log model_id targets [] None fs) as (_ & _ & n & _ & Hw & _).
  assert ((writes (events_of (main_loop model_id targets [] None fs))).*1
            `sublist_of` (entry_path <$> IMAGE_PROMPTS.*2)) as Hloop.
  { rewrite Hw. etrans; [apply omap_entry_write_paths|].
    apply fmap_sublist, fmap_sublist. etrans; [apply sublist_take|done]. }
  destruct (result_of (main_loop model_id targets [] None fs)) as [[results icon_path]|e];
    rewrite events_of_run, writes_print.
  - rewrite writes_app, fmap_app. apply sublist_app; [done|]. apply finish_log.
  - by apply sublist_inserts_r.
Qed.

End MainLog.

(** ** Whole runs *)

Section MainMore.
Context `{Platform}.



End MainMore.

Section MainReturns.
Context `{Platform}.

(** [main] returns exactly when the loop and the icon step return. *)
Lemma main_returns_inv args fs model_id targets :
  list_models args = false →
  dict_get AVAILABLE_MODELS (model args) = Some model_id →
  resolve_targets (target args) = Ret targets →
  result_of (main args fs) = Ret tt →
  ∃ icon_path,
    result_of (main_loop model_id targets [] None fs)
      = Ret ((λ entry, (entry.1, entry_result model_id entry.2)) <$> targets, icon_path) ∧
    writes (events_of (main_loop model_id targets [] None fs))
      = omap (entry_write model_id) targets.
Proof.
  intros Hlist Hmodel Htargets.
  rewrite (main_run args fs model_id targets Hlist Hmodel Htargets).
  destruct (resolve_targets_catalog _ _ Htargets) as (_ & Hnd).
  destruct (main_loop_log model_id targets [] None fs) as (_ & _ & n & _ & Hw & Hn & _).
  destruct (result_of (main_loop model_id targets [] None fs))
    as [[results icon_path]|e] eqn:Hret; [|done].
  intros _. exists icon_path.
  rewrite (main_loop_records model_id targets [] None fs results icon_path Hnd Hret).
  split; [done|]. by rewrite Hw, (Hn _ eq_refl), firstn_all.
Qed.

(** X8: when [main] returns, the summary has one line for every requested
    entry, in the order of the request: with the file name when the client
    returned a picture for the entry, as failed otherwise.  The first
    number of the tally counts the entries with a file name, which is the
    number of catalog files that the run has written; the second is the
    size of the catalog. *)
Theorem summary_lists_every_requested_entry args fs model_id targets :
  list_models args = false →
  dict_get AVAILABLE_MODELS (model args) = Some model_id →
  resolve_targets (target args) = Ret targets →
  result_of (main args fs) = Ret tt →
  summary (events_of (main args fs)) = entry_summary model_id <$> targets ∧
  tallies (events_of (main args fs))
    = [(length (omap (entry_write model_id) targets), length IMAGE_PROMPTS)] ∧
  ∃ icon_writes,
    writes (events_of (main args fs)) = omap (entry_write model_id) targets ++ icon_writes ∧
    icon_writes.*1 `sublist_of` icon_size_paths.
Proof.
  intros Hlist Hmodel Htargets Hret.
  destruct (main_returns_inv args fs model_id targets Hlist Hmodel Htargets Hret)
    as (icon_path & Hloop & Hwrites).
  revert Hret. rewrite (main_run args fs model_id targets Hlist Hmodel Htargets), Hloop.
  rewrite result_of_run, events_of_run. intros Hfinish.
  destruct (main_loop_log model_id targets [] None fs) as (Hsum & Htal & _).
  destruct (finish_log ((λ entry, (entry.1, entry_result model_id entry.2)) <$> targets)
              icon_path (fs_of (main_loop model_id targets [] None fs)))
    as (Hfw & Hfin).
  rewrite Hfinish in Hfin. destruct Hfin as (_ & Hfs & Hft).
  change (EvPrint (MsgBanner model_id) :: ?l) with ([EvPrint (MsgBanner model_id)] ++ l).
  rewrite !summary_app, !tallies_app, !writes_app, Hsum, Htal, Hfs, Hft, Hwrites.
  rewrite success_total_records, <- list_fmap_compose.
  split; [done|]. split; [done|]. by eexists.
Qed.



(** X10: with [--list-models] the script prints the three models, the
    default one marked, and leaves with exit status 0, whatever the other
    arguments are: nothing is requested and nothing is written. *)
Theorem list_models_exits_without_requests args fs :
  list_models args = true →
  result_of (main args fs) = Raise (SystemExit 0) ∧
  fs_of (main args fs) = fs ∧
  posts (events_of (main args fs)) = [] ∧
  writes (events_of (main args fs)) = [] ∧
  printed (events_of (main args fs)) =
    [MsgModelLine "gemini-3-pro" "gemini-3-pro-image-preview" true;
     MsgModelLine "gemini-2.5-flash" "gemini-2.5-flash-preview-05-20" false;
     MsgModelLine "imagen-3" "imagen-3.0-generate-002" false].
Proof. intros Hlist. unfold main. rewrite Hlist. by repeat split. Qed.

End MainReturns.

Section MainFiles.
Context `{Platform}.

(** X12: whatever the arguments, the provider and the outcome, the files
    that a run of [main] writes are among nine files in the output
    directory, each written at most once and in this order: the files of
    the catalog in its order, then the three derived icons.  Every other
    file is as it was before the run. *)
Theorem run_writes_only_its_output_files args fs :
  output_paths =
    ["assets/icon128.png"; "assets/promo_small_440x280.png";
     "assets/promo_large_920x680.png"; "assets/screenshot_popup_1280x800.png";
     "assets/screenshot_result_1280x800.png"; "assets/screenshot_options_1280x800.png";
     "assets/icon16.png"; "assets/icon32.png"; "assets/icon48.png"] ∧
  (writes (events_of (main args fs))).*1 `sublist_of` output_paths ∧
  (∀ p, p ∉ output_paths → files (fs_of (main args fs)) !! p = files fs !! p).
Proof.
  split; [by vm_compute|]. split; [apply main_writes_sublist|].
  intros p Hp. rewrite logged_main. apply apply_writes_frame.
  intros Hin. apply Hp. eapply elem_of_sublist; [exact Hin|apply main_writes_sublist].
Qed.

(** X13: no file is written twice in a run, so that nothing that the run
    has written is overwritten later in the same run: at the end of
    [main], however it ends, every file that was written holds the bytes
    of its write. *)
Theorem every_write_survives_the_run args fs :
  NoDup (writes (events_of (main args fs))).*1 ∧
  (∀ p d, (p, d) ∈ writes (events_of (main args fs)) →
          files (fs_of (main args fs)) !! p = Some d).
Proof.
  assert (NoDup (writes (events_of (main args fs))).*1) as Hnd.
  { eapply sublist_NoDup; [apply output_paths_distinct|apply main_writes_sublist]. }
  split; [done|]. intros p d Hin. rewrite logged_main. by apply apply_writes_lookup.
Qed.

(** The requests of a run are those of entries of the catalog, for the
    model of the arguments. *)
Lemma main_posts args fs :
  Forall (λ request, ∃ model_id entry,
            dict_get AVAILABLE_MODELS (model args) = Some model_id ∧
            entry ∈ IMAGE_PROMPTS ∧
            request = entry_request model_id entry)
         (posts (events_of (main args fs))).
Proof.
  destruct (list_models args) eqn:Hlist.
  { unfold main. rewrite Hlist.
    change (posts (events_of ((print_models AVAILABLE_MODELS ;; raise (SystemExit 0)) fs)))
      with (@nil Request).
    constructor. }
  destruct (dict_get AVAILABLE_MODELS (model args)) as [model_id|] eqn:Hmodel.
  2: { unfold main. rewrite Hlist, Hmodel, bind_lift. constructor. }
  destruct (resolve_targets (target args)) as [targets|e] eqn:Htargets.
  2: { unfold main. rewrite Hlist, Hmodel, bind_lift, bind_print, Htargets, bind_lift.
       constructor. }
  rewrite (main_run args fs model_id targets Hlist Hmodel Htargets).
  destruct (resolve_targets_catalog _ _ Htargets) as (Hsub & _).
  destruct (main_loop_progress model_id targets [] None fs) as (_ & n & _ & Hposts & _).
  assert (Forall (λ request, ∃ model_id' entry,
                    Some model_id = Some model_id' ∧ entry ∈ IMAGE_PROMPTS ∧
                    request = entry_request model_id' entry)
                 (posts (events_of (main_loop model_id targets [] None fs)))) as Hloop.
  { rewrite Hposts. apply Forall_fmap, Forall_forall. intros entry Hin.
    exists model_id, entry. repeat split.
    eapply elem_of_sublist; [|exact Hsub]. eapply elem_of_sublist; [exact Hin|].
    apply sublist_take. }
  destruct (result_of (main_loop model_id targets [] None fs)) as [[results icon_path]|e];
    rewrite events_of_run, posts_print; [|done].
  destruct (finish_effects results icon_path
              (fs_of (main_loop model_id targets [] None fs))) as (Hfp & _).
  by rewrite posts_app, Hfp, app_nil_r.
Qed.

(** X14: without a key in the environment (unset or empty) the script
    leaves with exit status 1 before anything is requested or written.
    Every request that the script posts carries the non-empty key of the
    environment in the header [x-goog-api-key], and asks the model chosen
    by the arguments, one of [AVAILABLE_MODELS], for the prompt of an entry
    of the catalog. *)
Theorem script_sends_the_key_or_nothing args fs :
  (GEMINI_API_KEY = "" →
     result_of (script args fs) = Raise (SystemExit 1) ∧
     fs_of (script args fs) = fs ∧
     posts (events_of (script args fs)) = [] ∧
     writes (events_of (script args fs)) = []) ∧
  Forall (λ request,
            GEMINI_API_KEY ≠ "" ∧
            dict_get (req_headers request) "x-goog-api-key" = Some GEMINI_API_KEY ∧
            ∃ model_id entry,
              dict_get AVAILABLE_MODELS (model args) = Some model_id ∧
              entry ∈ IMAGE_PROMPTS ∧
              req_url request =
                "https://generativelanguage.googleapis.com/v1beta/models/" +:+ model_id
                  +:+ ":generateContent" ∧
              py_get (req_json request) "contents" JNull
                = Ret (JArr [JObj [("parts", JArr [JObj [("text", JStr (prompt entry.2))]])]]))
         (posts (events_of (script args fs))).
Proof.
  unfold script, GEMINI_API_KEY.
  destruct getenv_GEMINI_API_KEY as [[|c key]|] eqn:Hkey; cbn [default].
  - split; [done|constructor].
  - split; [done|].
    eapply Forall_impl; [apply main_posts|].
    intros request (model_id & entry & Hmodel & Hentry & ->).
    split; [done|]. split.
    { unfold entry_request, gemini_request, GEMINI_API_KEY. by rewrite Hkey. }
    by exists model_id, entry.
  - split; [done|constructor].
Qed.



(** One step of the loop over the sizes. *)
Lemma resize_each_cons pil img size rest fs resized o fs' evs :
  resize_save pil img size = Ret resized →
  resize_each pil img rest
    {| dirs := dirs fs;
       files := <[path_join OUTPUT_DIR ("icon" +:+ pretty size +:+ ".png") := resized]>
                  (files fs) |} = (o, fs', evs) →
  resize_each pil img (size :: rest) fs =
    (o, fs',
     EvWrite (path_join OUTPUT_DIR ("icon" +:+ pretty size +:+ ".png")) resized
       :: EvPrint (MsgResized (path_join OUTPUT_DIR ("icon" +:+ pretty size +:+ ".png")))
       :: evs).
Proof.
  intros Hsize Hrest. cbn [resize_each].
  by rewrite bind_lift, Hsize, bind_write_file, bind_print, Hrest.
Qed.

Lemma resize_each_fails pil img size rest fs e :
  resize_save pil img size = Raise e →
  resize_each pil img (size :: rest) fs = (Raise e, fs, []).
Proof. intros Hsize. cbn [resize_each]. by rewrite bind_lift, Hsize. Qed.

Lemma icon_size_path_16 :
  path_join OUTPUT_DIR ("icon" +:+ pretty (16 : Z) +:+ ".png") = "assets/icon16.png".
Proof. by vm_compute. Qed.

Lemma icon_size_path_32 :
  path_join OUTPUT_DIR ("icon" +:+ pretty (32 : Z) +:+ ".png") = "assets/icon32.png".
Proof. by vm_compute. Qed.

Lemma icon_size_path_48 :
  path_join OUTPUT_DIR ("icon" +:+ pretty (48 : Z) +:+ ".png") = "assets/icon48.png".
Proof. by vm_compute. Qed.

Lemma icon_size_paths_eq :
  icon_size_paths = ["assets/icon16.png"; "assets/icon32.png"; "assets/icon48.png"].
Proof. by vm_compute. Qed.

(** The three sizes, when Pillow opens the icon and resizes it. *)
Lemma create_icon_sizes_run base_icon_path fs pil content img r16 r32 r48 :
  PIL = Some pil →
  files fs !! base_icon_path = Some content →
  Image_open pil content = Ret img →
  resize_save pil img 16 = Ret r16 →
  resize_save pil img 32 = Ret r32 →
  resize_save pil img 48 = Ret r48 →
  create_icon_sizes base_icon_path fs =
    (Ret tt,
     {| dirs := dirs fs;
        files := <["assets/icon48.png" := r48]>
                   (<["assets/icon32.png" := r32]>
                      (<["assets/icon16.png" := r16]> (files fs))) |},
     [EvIconSizes base_icon_path;
      EvWrite "assets/icon16.png" r16; EvPrint (MsgResized "assets/icon16.png");
      EvWrite "assets/icon32.png" r32; EvPrint (MsgResized "assets/icon32.png");
      EvWrite "assets/icon48.png" r48; EvPrint (MsgResized "assets/icon48.png")]).
Proof.
  intros Hpil Hfile Hopen H16 H32 H48.
  unfold create_icon_sizes.
  rewrite bind_emit, Hpil, bind_read_file, Hfile, bind_lift, Hopen.
  rewrite (resize_each_cons pil img 16 [32; 48] fs r16 _ _ _ H16
             (resize_each_cons pil img 32 [48] _ r32 _ _ _ H32
                (resize_each_cons pil img 48 [] _ r48 _ _ _ H48 eq_refl))).
  rewrite result_of_run, fs_of_run, events_of_run.
  by rewrite icon_size_path_16, icon_size_path_32, icon_size_path_48.
Qed.

End MainFiles.

(** ** Persistence and icon derivation *)

Section IconSizes.
Context `{Platform}.

(** X16: saving twice under the file name of an entry leaves the bytes of
    the second call in the file of the entry: the file is overwritten, the
    output directory is created once, the path returned is the file of the
    entry in the output directory, and no other file changes. *)
Theorem save_image_overwrites_and_keeps_other_files image_id config first second fs :
  (image_id, config) ∈ IMAGE_PROMPTS →
  let saved := save_image second (filename config)
                 (fs_of (save_image first (filename config) fs)) in
  result_of saved = Ret (entry_path config) ∧
  files (fs_of saved) = <[entry_path config := second]> (files fs) ∧
  dirs (fs_of saved) = {[ OUTPUT_DIR ]} ∪ dirs fs ∧
  (∀ p, p ≠ entry_path config → files (fs_of saved) !! p = files fs !! p).
Proof.
  intros _ saved. subst saved. rewrite !save_image_run, result_of_run, !fs_of_run.
  cbn [files dirs]. unfold entry_path.
  split; [done|]. split; [apply insert_insert_eq|]. split.
  { by rewrite (assoc_L (∪)), (idemp_L (∪)). }
  intros p Hp. rewrite insert_insert_eq. by apply lookup_insert_ne.
Qed.

(** X17: with Pillow, the base icon is opened once and each of the sizes
    16, 32 and 48 is resized from it and saved, in this order, as
    [icon16.png], [icon32.png] and [icon48.png] in the output directory;
    the base icon itself is left as it is. *)
Theorem icon_sizes_are_resized_from_the_base_icon
    base_icon_path fs pil content img r16 r32 r48 :
  PIL = Some pil →
  files fs !! base_icon_path = Some content →
  Image_open pil content = Ret img →
  resize_save pil img 16 = Ret r16 →
  resize_save pil img 32 = Ret r32 →
  resize_save pil img 48 = Ret r48 →
  result_of (create_icon_sizes base_icon_path fs) = Ret tt ∧
  writes (events_of (create_icon_sizes base_icon_path fs))
    = [("assets/icon16.png", r16); ("assets/icon32.png", r32); ("assets/icon48.png", r48)] ∧
  (base_icon_path ∉ icon_size_paths →
   files (fs_of (create_icon_sizes base_icon_path fs)) !! base_icon_path = Some content).
Proof.
  intros Hpil Hfile Hopen H16 H32 H48.
  rewrite (create_icon_sizes_run _ _ _ _ _ _ _ _ Hpil Hfile Hopen H16 H32 H48).
  rewrite result_of_run, events_of_run, fs_of_run. split; [done|]. split; [done|].
  rewrite icon_size_paths_eq. intros Hbase. cbn [files].
  rewrite !lookup_insert_ne; [done|..]; intros <-; apply Hbase; set_solver.
Qed.

(** X18: a resize that fails ends the derivation with its exception, which
    is not caught; the sizes saved before it stay on disk, and the later
    sizes are not attempted. *)
Theorem icon_sizes_stop_at_the_first_failure
    base_icon_path fs pil content img r16 e :
  PIL = Some pil →
  files fs !! base_icon_path = Some content →
  Image_open pil content = Ret img →
  resize_save pil img 16 = Ret r16 →
  resize_save pil img 32 = Raise e →
  result_of (create_icon_sizes base_icon_path fs) = Raise e ∧
  writes (events_of (create_icon_sizes base_icon_path fs)) = [("assets/icon16.png", r16)] ∧
  files (fs_of (create_icon_sizes base_icon_path fs)) !! "assets/icon16.png" = Some r16.
Proof.
  intros Hpil Hfile Hopen H16 H32.
  unfold create_icon_sizes.
  rewrite bind_emit, Hpil, bind_read_file, Hfile, bind_lift, Hopen.
  rewrite (resize_each_cons pil img 16 [32; 48] fs r16 _ _ _ H16
             (resize_each_fails pil img 32 [48] _ e H32)).
  rewrite result_of_run, fs_of_run, events_of_run, icon_size_path_16.
  split; [done|]. split; [done|]. cbn [files]. apply lookup_insert_eq.
Qed.


End IconSizes.

(** ** Witnesses of the further properties *)


Lemma summary_lists_every_requested_entry_witness :
  summary (events_of (@main (scripted image_provider (Some stub_pillow)) icon_args empty_fs))
    = [@entry_summary (scripted image_provider (Some stub_pillow)) pro_model
         ("icon", icon_spec)].
Proof.
  refine (proj1 (@summary_lists_every_requested_entry
                   (scripted image_provider (Some stub_pillow))
                   icon_args empty_fs pro_model [("icon", icon_spec)] _ _ _ _)).
  - reflexivity.
  - reflexivity.
  - reflexivity.
  - vm_compute. reflexivity.
Defined.


Lemma list_models_exits_without_requests_witness :
  result_of (@main (scripted image_provider None) list_args empty_fs)
    = Raise (SystemExit 0).
Proof.
  refine (proj1 (@list_models_exits_without_requests (scripted image_provider None)
                   list_args empty_fs _)).
  reflexivity.
Defined.


Lemma save_image_overwrites_and_keeps_other_files_witness :
  result_of (@save_image abc (filename icon_spec)
               (fs_of (@save_image [x41] (filename icon_spec) empty_fs)))
    = Ret (entry_path icon_spec).
Proof.
  refine (proj1 (@save_image_overwrites_and_keeps_other_files
                   "icon" icon_spec [x41] abc empty_fs _)).
  apply list_elem_of_here.
Defined.

Lemma icon_sizes_are_resized_from_the_base_icon_witness :
  result_of (@create_icon_sizes (scripted image_provider (Some stub_pillow))
               (entry_path icon_spec) icon_fs) = Ret tt.
Proof.
  refine (proj1 (@icon_sizes_are_resized_from_the_base_icon
                   (scripted image_provider (Some stub_pillow))
                   (entry_path icon_spec) icon_fs stub_pillow abc abc
                   [Base64.to_byte 16] [Base64.to_byte 32] [Base64.to_byte 48]
                   _ _ _ _ _ _)).
  - reflexivity.
  - vm_compute. reflexivity.
  - reflexivity.
  - reflexivity.
  - reflexivity.
  - reflexivity.
Defined.

Lemma icon_sizes_stop_at_the_first_failure_witness :
  result_of (@create_icon_sizes (scripted image_provider (Some small_only_pillow))
               (entry_path icon_spec) icon_fs) = Raise ValueError.
Proof.
  refine (proj1 (@icon_sizes_stop_at_the_first_failure
                   (scripted image_provider (Some small_only_pillow))
                   (entry_path icon_spec) icon_fs small_only_pillow abc abc
                   [Base64.to_byte 16] ValueError _ _ _ _ _)).
  - reflexivity.
  - vm_compute. reflexivity.
  - reflexivity.
  - reflexivity.
  - reflexivity.
Defined.


(** * Claims about whole runs *)

Section ClaimsOnRuns.
Context `{Platform}.





End ClaimsOnRuns.

(** ** Counterexamples and witnesses on concrete runs *)





